(** * DataTalksClub course-projects dashboard: loader and dynamic filter

    A shallow embedding of [src/app.py]: [load_data] (lines 26-36) and
    [filter_dataframe] (lines 65-118), over a small model of the parts of
    pandas and Streamlit that the two functions call.

    Conventions.
    - A DataFrame is a list of named, typed columns and a list of rows; a row
      carries its index label and one cell per column.
    - Numbers are integers: the two functions only compare numbers. NaN
      (the missing marker) and nested, unhashable Python objects are
      separate constructors.
    - A Python exception is a [Raise] result.
    - The values returned by the Streamlit widgets are read from a [Widgets]
      record; an untouched widget returns its default. What the widgets
      draw on the page is not modelled.
    - The regular-expression engine behind [Series.str.contains] and the
      dtype promotion of [pd.concat] are parameters.
    - [load_data] returns the lines it prints along with its outcome.
    - [filter_dataframe] is given twice: as a function on tables, and over a
      store of objects, to speak about what the call does to its argument. *)

From Stdlib Require Import List ZArith QArith String Ascii Bool Arith Lia.
Import ListNotations.

Set Implicit Arguments.

(** ** Values and dtypes *)

Inductive value : Type :=
| VNaN                       (* NaN / None: the missing marker *)
| VNum (z : Z)               (* int64 / float64 / bool cell *)
| VStr (s : string)          (* Python str *)
| VList (items : list Z).    (* nested structure, e.g. a list: unhashable *)

Definition value_eq_dec (a b : value) : {a = b} + {a <> b}.
Proof.
  decide equality.
  - apply Z.eq_dec.
  - apply string_dec.
  - apply (list_eq_dec Z.eq_dec).
Defined.

Definition value_eqb (a b : value) : bool :=
  if value_eq_dec a b then true else false.

(** [hash(x)] succeeds. *)
Definition hashable (v : value) : bool :=
  match v with VList _ => false | _ => true end.

Definition isna (v : value) : bool :=
  match v with VNaN => true | _ => false end.

Definition notna (v : value) : bool := negb (isna v).

Inductive dtype : Type :=
| DBool | DInt64 | DFloat64 | DObject | DCategory | DDatetime64.

Definition is_numeric_dtype (d : dtype) : bool :=
  match d with DBool | DInt64 | DFloat64 => true | _ => false end.

Definition is_categorical_dtype (d : dtype) : bool :=
  match d with DCategory => true | _ => false end.

(** ** Exceptions *)

Inductive exn : Type :=
| KeyError | AttributeError | ReError | StreamlitAPIException
| ParserError | ReferenceError.

Inductive result (A : Type) : Type :=
| Ok (a : A)
| Raise (e : exn).

Arguments Ok {A} a.
Arguments Raise {A} e.

Definition bind {A B : Type} (m : result A) (k : A -> result B) : result B :=
  match m with
  | Ok a => k a
  | Raise e => Raise e
  end.

Notation "x <- m ;; k" := (bind m (fun x => k))
  (at level 61, m at next level, right associativity).

(** ** Tables *)

Record Row : Type := mkRow {
  label : nat;               (* index label *)
  cells : list value         (* one cell per column, in column order *)
}.

Record DataFrame : Type := mkDataFrame {
  columns : list (string * dtype);
  rows : list Row
}.

Record Series : Type := mkSeries {
  s_dtype : dtype;
  s_values : list value
}.

Definition column_names (df : DataFrame) : list string :=
  map fst (columns df).

Fixpoint col_index (c : string) (cols : list (string * dtype))
  : option (nat * dtype) :=
  match cols with
  | [] => None
  | (n, d) :: cols' =>
      if String.eqb c n then Some (O, d)
      else match col_index c cols' with
           | Some (i, d') => Some (S i, d')
           | None => None
           end
  end.

Definition cell (i : nat) (r : Row) : value := nth i (cells r) VNaN.

(** [df[column]] *)
Definition getitem (df : DataFrame) (column : string) : result Series :=
  match col_index column (columns df) with
  | Some (i, d) => Ok (mkSeries d (map (cell i) (rows df)))
  | None => Raise KeyError
  end.

(** [df[mask]]: the rows whose mask entry is [True]; labels and cells are
    kept as they are. *)
Definition boolean_index (df : DataFrame) (mask : list bool) : DataFrame :=
  mkDataFrame (columns df)
              (map fst (filter snd (combine (rows df) mask))).

(** [df.copy()] *)
Definition copy (df : DataFrame) : DataFrame := df.

(** ** Series methods *)

(** Distinct values in order of first appearance. *)
Fixpoint distinct (l : list value) : list value :=
  match l with
  | [] => []
  | x :: l' => x :: filter (fun y => negb (value_eqb x y)) (distinct l')
  end.

(** [s.unique()]: NaN is one of the values. *)
Definition unique (s : Series) : list value := distinct (s_values s).

(** [s.nunique()]: NaN is not counted. *)
Definition nunique (s : Series) : nat :=
  List.length (distinct (filter notna (s_values s))).

(** [s.isin(values)]; NaN is in a list that holds NaN. *)
Definition isin (s : Series) (values : list value) : list bool :=
  map (fun v => existsb (value_eqb v) values) (s_values s).

Definition numbers (l : list value) : list Z :=
  flat_map (fun v => match v with VNum z => [z] | _ => [] end) l.

Definition fold_opt (f : Z -> Z -> Z) (l : list Z) : option Z :=
  match l with
  | [] => None
  | z :: l' => Some (fold_left f l' z)
  end.

(** [s.min()] and [s.max()] skip NaN; [None] stands for the NaN they return
    when nothing is left. *)
Definition series_min (s : Series) : option Z :=
  fold_opt Z.min (numbers (s_values s)).

Definition series_max (s : Series) : option Z :=
  fold_opt Z.max (numbers (s_values s)).

(** [s.between(lo, hi)], inclusive on both sides; NaN gives [False]. *)
Definition between (s : Series) (lo hi : Z) : list bool :=
  map (fun v => match v with
                | VNum z => (lo <=? z)%Z && (z <=? hi)%Z
                | _ => false
                end) (s_values s).

(** A compiled pattern is a predicate on strings; [None] is [re.error].
    The second argument is the [case] flag ([false]: re.IGNORECASE). *)
Definition regex_engine : Type := string -> bool -> option (string -> bool).

(** What [lib.infer_dtype(values, skipna=True)] has to say for the [.str]
    accessor to exist on an object column: anything but numbers only. *)
Definition str_accessor_ok (s : Series) : bool :=
  match s_dtype s with
  | DObject =>
      let present := filter notna (s_values s) in
      match present with
      | [] => true
      | _ => negb (forallb (fun v => match v with VNum _ => true | _ => false end)
                           present)
      end
  | _ => false
  end.

(** [s.str.contains(pat, case=case, na=False)] *)
Definition str_contains (re_compile : regex_engine)
           (s : Series) (pat : string) (case : bool) : result (list bool) :=
  if str_accessor_ok s then
    match re_compile pat case with
    | Some search =>
        Ok (map (fun v => match v with
                          | VStr x => search x
                          | _ => false          (* na=False *)
                          end) (s_values s))
    | None => Raise ReError
    end
  else Raise AttributeError.

(** ** Streamlit widgets *)

(** What the user has entered, per widget; [None] is an untouched widget. *)
Record Widgets : Type := mkWidgets {
  w_columns : option (list string);             (* "Select columns to filter" *)
  w_multiselect : string -> option (list value);(* "Values for {column}" menu *)
  w_slider : string -> option (Z * Z);          (* "Values for {column}" slider *)
  w_text : string -> string;                    (* "Substring or regex in {column}" *)
  w_checkbox : string -> option bool            (* key case_sensitive_{column} *)
}.

Definition st_multiselect {A : Type} (options default : list A)
           (state : option (list A)) : list A :=
  match state with
  | Some chosen => chosen
  | None => default
  end.

(** The slider needs real bounds. *)
Definition st_slider (min_value max_value : option Z) (step : Q)
           (state : option (Z * Z)) : result (Z * Z) :=
  match min_value, max_value with
  | Some lo, Some hi =>
      Ok (match state with Some chosen => chosen | None => (lo, hi) end)
  | _, _ => Raise StreamlitAPIException
  end.

Definition st_text_input (state : string) : string := state.

Definition st_checkbox (value : bool) (state : option bool) : bool :=
  match state with
  | Some b => b
  | None => value
  end.

(** Truthiness of a Python string. *)
Definition truthy (s : string) : bool :=
  match s with EmptyString => false | _ => true end.

(** ** The dynamic filter *)

Inductive kind : Type := Categorical | Numeric | FreeText.

(** The if/elif/else chain of lines 84-106. *)
Definition classify (s : Series) : kind :=
  if is_categorical_dtype (s_dtype s) || (nunique s <? 10)%nat then Categorical
  else if is_numeric_dtype (s_dtype s) then Numeric
  else FreeText.

Section FilterEngine.

Variable re_compile : regex_engine.

(** The body of the branch chosen for [column] (lines 87-116). *)
Definition apply_filter (ui : Widgets) (k : kind) (column : string)
           (df_filtered : DataFrame) : result DataFrame :=
  s <- getitem df_filtered column ;;
  match k with
  | Categorical =>
      let user_cat_input :=
        st_multiselect (unique s) (unique s) (w_multiselect ui column) in
      Ok (boolean_index df_filtered (isin s user_cat_input))
  | Numeric =>
      let _min := series_min s in
      let _max := series_max s in
      let step :=
        match _min, _max with
        | Some lo, Some hi => (inject_Z (hi - lo) / inject_Z 100)%Q
        | _, _ => 0%Q
        end in
      user_num_input <- st_slider _min _max step (w_slider ui column) ;;
      Ok (boolean_index df_filtered
            (between s (fst user_num_input) (snd user_num_input)))
  | FreeText =>
      let user_text_input := st_text_input (w_text ui column) in
      let case_sensitive := st_checkbox false (w_checkbox ui column) in
      if truthy user_text_input then
        mask <- str_contains re_compile s user_text_input case_sensitive ;;
        Ok (boolean_index df_filtered mask)
      else Ok df_filtered
  end.

(** One iteration of the loop of line 76. The hashability test reads the
    copy of the input, [df]; classification and filtering read
    [df_filtered]. *)
Definition filter_column (ui : Widgets) (df df_filtered : DataFrame)
           (column : string) : result DataFrame :=
  s0 <- getitem df column ;;
  if forallb hashable (s_values s0) then
    s <- getitem df_filtered column ;;
    apply_filter ui (classify s) column df_filtered
  else Ok df_filtered.                       (* except TypeError: continue *)

Fixpoint filter_columns (ui : Widgets) (df df_filtered : DataFrame)
         (to_filter_columns : list string) : result DataFrame :=
  match to_filter_columns with
  | [] => Ok df_filtered
  | column :: rest =>
      df_filtered' <- filter_column ui df df_filtered column ;;
      filter_columns ui df df_filtered' rest
  end.

Definition filter_dataframe (ui : Widgets) (df : DataFrame)
  : result DataFrame :=
  let df := copy df in
  let to_filter_columns :=
    st_multiselect (column_names df) (column_names df) (w_columns ui) in
  let df_filtered := copy df in
  filter_columns ui df df_filtered to_filter_columns.

(** For comparison only: the step as it would be if the branch were chosen
    from the input table instead of the partially filtered one. *)
Definition filter_column_from_input (ui : Widgets) (df df_filtered : DataFrame)
           (column : string) : result DataFrame :=
  s0 <- getitem df column ;;
  if forallb hashable (s_values s0) then
    apply_filter ui (classify s0) column df_filtered
  else Ok df_filtered.

End FilterEngine.

(** ** The same code over objects

    Python passes DataFrames by reference. Here the objects live in a store,
    a name is bound to an address, and every call that builds a DataFrame
    ([copy], [df[mask]]) puts a new object in the store. *)

Definition ref : Type := nat.
Definition heap : Type := list DataFrame.

Definition M (A : Type) : Type := heap -> result A * heap.

Definition ret {A : Type} (a : A) : M A := fun h => (Ok a, h).

Definition lift {A : Type} (r : result A) : M A := fun h => (r, h).

Definition bindM {A B : Type} (m : M A) (k : A -> M B) : M B :=
  fun h => match m h with
           | (Ok a, h') => k a h'
           | (Raise e, h') => (Raise e, h')
           end.

Notation "x <~ m ;; k" := (bindM m (fun x => k))
  (at level 61, m at next level, right associativity).

Definition new_object (d : DataFrame) : M ref :=
  fun h => (Ok (List.length h), h ++ [d]).

Definition read (r : ref) : M DataFrame :=
  fun h => (match nth_error h r with
            | Some d => Ok d
            | None => Raise ReferenceError
            end, h).

(** [r.copy()] *)
Definition obj_copy (r : ref) : M ref :=
  d <~ read r ;; new_object (copy d).

(** [r[column]]; a Series is used on the spot and never stored. *)
Definition obj_getitem (r : ref) (column : string) : M Series :=
  d <~ read r ;; lift (getitem d column).

(** [r[mask]] *)
Definition obj_boolean_index (r : ref) (mask : list bool) : M ref :=
  d <~ read r ;; new_object (boolean_index d mask).

Section FilterEngineObjects.

Variable re_compile : regex_engine.

Definition apply_filter_obj (ui : Widgets) (k : kind) (column : string)
           (df_filtered : ref) : M ref :=
  s <~ obj_getitem df_filtered column ;;
  match k with
  | Categorical =>
      let user_cat_input :=
        st_multiselect (unique s) (unique s) (w_multiselect ui column) in
      obj_boolean_index df_filtered (isin s user_cat_input)
  | Numeric =>
      let _min := series_min s in
      let _max := series_max s in
      let step :=
        match _min, _max with
        | Some lo, Some hi => (inject_Z (hi - lo) / inject_Z 100)%Q
        | _, _ => 0%Q
        end in
      user_num_input <~ lift (st_slider _min _max step (w_slider ui column)) ;;
      obj_boolean_index df_filtered
        (between s (fst user_num_input) (snd user_num_input))
  | FreeText =>
      let user_text_input := st_text_input (w_text ui column) in
      let case_sensitive := st_checkbox false (w_checkbox ui column) in
      if truthy user_text_input then
        mask <~ lift (str_contains re_compile s user_text_input
                                   case_sensitive) ;;
        obj_boolean_index df_filtered mask
      else ret df_filtered
  end.

Definition filter_column_obj (ui : Widgets) (df df_filtered : ref)
           (column : string) : M ref :=
  s0 <~ obj_getitem df column ;;
  if forallb hashable (s_values s0) then
    s <~ obj_getitem df_filtered column ;;
    apply_filter_obj ui (classify s) column df_filtered
  else ret df_filtered.

Fixpoint filter_columns_obj (ui : Widgets) (df df_filtered : ref)
         (to_filter_columns : list string) : M ref :=
  match to_filter_columns with
  | [] => ret df_filtered
  | column :: rest =>
      df_filtered' <~ filter_column_obj ui df df_filtered column ;;
      filter_columns_obj ui df df_filtered' rest
  end.

Definition filter_dataframe_obj (ui : Widgets) (df : ref) : M ref :=
  df <~ obj_copy df ;;
  d <~ read df ;;
  let to_filter_columns :=
    st_multiselect (column_names d) (column_names d) (w_columns ui) in
  df_filtered <~ obj_copy df ;;
  filter_columns_obj ui df df_filtered to_filter_columns.

End FilterEngineObjects.

(** [h'] is [h] with new objects after it: the old addresses hold what they
    held. *)
Definition extends (h h' : heap) : Prop := exists added, h' = h ++ added.

(** A run from [h] either raises as the function [pure] does, or returns an
    address that holds the table [pure] returns and is [old] or a new one;
    in both cases the store has only grown. *)
Definition refines (h : heap) (old : ref) (run : result ref * heap)
           (pure : result DataFrame) : Prop :=
  extends h (snd run) /\
  match fst run with
  | Ok r => (exists t, nth_error (snd run) r = Some t /\ pure = Ok t) /\
            (r = old \/ List.length h <= r)%nat
  | Raise e => pure = Raise e
  end.

(** ** The loader *)

(** What is on disk: [None] where [os.path.exists] is false, otherwise what
    [pd.read_csv] does with the path, a table or an exception. *)
Definition filesystem : Type := string -> option (result DataFrame).

(** [f"./Data/{course}/{year}/data.csv"] *)
Definition data_path (course year : string) : string :=
  ("./Data/" ++ course ++ "/" ++ year ++ "/data.csv")%string.

(** Names in order of first appearance. *)
Fixpoint first_seen (l : list string) : list string :=
  match l with
  | [] => []
  | x :: l' => x :: filter (fun y => negb (String.eqb x y)) (first_seen l')
  end.

Definition dtype_in (column : string) (df : DataFrame) : option dtype :=
  match col_index column (columns df) with
  | Some (_, d) => Some d
  | None => None
  end.

(** The cells of a row of [df], laid out over the columns [cols]; NaN
    where [df] has no such column. *)
Definition reindex (cols : list string) (df : DataFrame) (r : Row) : Row :=
  mkRow (label r)
        (map (fun c => match col_index c (columns df) with
                       | Some (i, _) => cell i r
                       | None => VNaN
                       end) cols).

(** [ignore_index=True]: labels 0, 1, 2, ... *)
Fixpoint relabel (start : nat) (rs : list Row) : list Row :=
  match rs with
  | [] => []
  | r :: rs' => mkRow start (cells r) :: relabel (S start) rs'
  end.

(** A computation that prints: the lines written to standard output, and
    the outcome. What is printed before an exception stays printed. *)
Definition logged (A : Type) : Type := (list string * result A)%type.

Definition done {A : Type} (a : A) : logged A := ([], Ok a).

Definition no_output {A : Type} (r : result A) : logged A := ([], r).

Definition print (line : string) : logged unit := ([line], Ok tt).

Definition and_then {A B : Type} (m : logged A) (k : A -> logged B)
  : logged B :=
  match m with
  | (out, Ok a) => (out ++ fst (k a), snd (k a))
  | (out, Raise e) => (out, Raise e)
  end.

Notation "x <! m ;; k" := (and_then m (fun x => k))
  (at level 61, m at next level, right associativity).

Section Loader.

(** The dtype pandas gives a column of the concatenation, from the
    dtype the column has in each table ([None]: the table lacks it). *)
Variable result_dtype : list (option dtype) -> dtype.

(** [pd.concat(dfs, ignore_index=True)] *)
Definition concat (dfs : list DataFrame) : DataFrame :=
  let cols := first_seen (flat_map column_names dfs) in
  mkDataFrame
    (map (fun c => (c, result_dtype (map (dtype_in c) dfs))) cols)
    (relabel 0 (flat_map (fun df => map (reindex cols df) (rows df)) dfs)).

Variable fs : filesystem.

(** The loop body of lines 30-35, for one (course, year) pair. *)
Definition load_file (course year : string) (dfs : list DataFrame)
  : logged (list DataFrame) :=
  let path := data_path course year in
  match fs path with
  | Some read_csv =>
      _ <! print ("Loading data from " ++ path) ;;
      df <! no_output read_csv ;;
      done (dfs ++ [df])
  | None =>
      _ <! print ("File not found: " ++ path) ;;
      done dfs
  end.

Fixpoint load_years (course : string) (selected_years : list string)
         (dfs : list DataFrame) : logged (list DataFrame) :=
  match selected_years with
  | [] => done dfs
  | year :: rest =>
      dfs' <! load_file course year dfs ;;
      load_years course rest dfs'
  end.

Fixpoint load_courses (selected_courses selected_years : list string)
         (dfs : list DataFrame) : logged (list DataFrame) :=
  match selected_courses with
  | [] => done dfs
  | course :: rest =>
      dfs' <! load_years course selected_years dfs ;;
      load_courses rest selected_years dfs'
  end.

Definition load_data (selected_courses selected_years : list string)
  : logged (option DataFrame) :=
  dfs <! load_courses selected_courses selected_years [] ;;
  match dfs with
  | [] => done None
  | _ => done (Some (concat dfs))
  end.

(** The tables of the pairs whose path exists and parses, in the order of
    the pairs. *)
Definition loaded_files (pairs : list (string * string)) : list DataFrame :=
  flat_map (fun p => match fs (data_path (fst p) (snd p)) with
                     | Some (Ok df) => [df]
                     | _ => []
                     end) pairs.

(** The lines printed for the pairs, when every file that exists parses. *)
Definition log_lines (pairs : list (string * string)) : list string :=
  map (fun p => let path := data_path (fst p) (snd p) in
                match fs path with
                | Some _ => "Loading data from " ++ path
                | None => "File not found: " ++ path
                end)%string pairs.

End Loader.

(** Column [column] of [df], or as many NaN as [df] has rows when it has
    no such column. *)
Definition column_or_missing (df : DataFrame) (column : string) : list value :=
  match getitem df column with
  | Ok s => s_values s
  | Raise _ => map (fun _ => VNaN) (rows df)
  end.

(** ** Row selection, as used in the statements below *)

(** The table with the rows that satisfy [p], labels and cells untouched. *)
Definition select (df : DataFrame) (p : Row -> bool) : DataFrame :=
  mkDataFrame (columns df) (filter p (rows df)).

(** The rows whose cell in [column] satisfies [p]. *)
Definition rows_where (df : DataFrame) (column : string) (p : value -> bool)
  : DataFrame :=
  match col_index column (columns df) with
  | Some (i, _) => select df (fun r => p (cell i r))
  | None => df
  end.

(** [l1] is [l2] with some elements removed, order kept. *)
Inductive subseq {A : Type} : list A -> list A -> Prop :=
| subseq_nil : subseq [] []
| subseq_skip : forall x l1 l2, subseq l1 l2 -> subseq l1 (x :: l2)
| subseq_keep : forall x l1 l2, subseq l1 l2 -> subseq (x :: l1) (x :: l2).

(** The three masks, row by row. *)
Definition cat_keep (chosen : list value) (i : nat) (r : Row) : bool :=
  existsb (value_eqb (cell i r)) chosen.

Definition num_keep (lo hi : Z) (i : nat) (r : Row) : bool :=
  match cell i r with
  | VNum z => (lo <=? z)%Z && (z <=? hi)%Z
  | _ => false
  end.

Definition text_keep (search : string -> bool) (i : nat) (r : Row) : bool :=
  match cell i r with
  | VStr x => search x
  | _ => false
  end.

(** The dtype of a numeric column admits numbers and NaN only. *)
Definition numeric_cells (s : Series) : bool :=
  forallb (fun v => match v with VNum _ | VNaN => true | _ => false end)
          (s_values s).

(** The columns the run filters on, and the same widgets with another
    answer to "Select columns to filter". *)
Definition selected_columns (ui : Widgets) (df : DataFrame) : list string :=
  st_multiselect (column_names df) (column_names df) (w_columns ui).

Definition with_columns (ui : Widgets) (cs : list string) : Widgets :=
  mkWidgets (Some cs) (w_multiselect ui) (w_slider ui) (w_text ui)
            (w_checkbox ui).

(** [column] is a column of [df] and holds a value that cannot be hashed. *)
Definition unhashable_column (df : DataFrame) (column : string) : Prop :=
  exists s, getitem df column = Ok s /\ forallb hashable (s_values s) = false.

Definition is_num (i : nat) (r : Row) : bool :=
  match cell i r with VNum _ => true | _ => false end.

(** A widget of the filter panel: the column it belongs to and the branch
    that put it there. *)
Definition widget : Type := (string * kind)%type.

(** The widgets a run of the loop displays, in loop order: one per column
    that passes the hashability test, of the kind its branch dictates. *)
Fixpoint widgets_shown (re_compile : regex_engine) (ui : Widgets)
         (df df_filtered : DataFrame) (to_filter_columns : list string)
  : list widget :=
  match to_filter_columns with
  | [] => []
  | column :: rest =>
      match getitem df column with
      | Ok s0 =>
          if forallb hashable (s_values s0) then
            match getitem df_filtered column with
            | Ok s =>
                (column, classify s) ::
                match apply_filter re_compile ui (classify s) column
                                   df_filtered with
                | Ok df_filtered' =>
                    widgets_shown re_compile ui df df_filtered' rest
                | Raise _ => []
                end
            | Raise _ => []
            end
          else widgets_shown re_compile ui df df_filtered rest
      | Raise _ => []
      end
  end.

(** The rows a widget lets through, given what the user entered in it. An
    untouched slider lets through the rows that hold a number. *)
Definition keeps (re_compile : regex_engine) (ui : Widgets)
           (cols : list (string * dtype)) (w : widget) (r : Row) : bool :=
  match col_index (fst w) cols with
  | None => true
  | Some (i, _) =>
      match snd w with
      | Categorical =>
          match w_multiselect ui (fst w) with
          | Some chosen => cat_keep chosen i r
          | None => true
          end
      | Numeric =>
          match w_slider ui (fst w) with
          | Some (lo, hi) => num_keep lo hi i r
          | None => is_num i r
          end
      | FreeText =>
          if truthy (w_text ui (fst w)) then
            match re_compile (w_text ui (fst w))
                             (st_checkbox false (w_checkbox ui (fst w))) with
            | Some search => text_keep search i r
            | None => true
            end
          else true
      end
  end.

(** Every column of a numeric dtype holds numbers and NaN only. *)
Definition well_typed (df : DataFrame) : bool :=
  forallb (fun c => match getitem df c with
                    | Ok s => if is_numeric_dtype (s_dtype s)
                              then numeric_cells s else true
                    | Raise _ => true
                    end)
          (column_names df).


(** ** Sample inputs *)

(** No widget touched: every column selected, every filter at its default. *)
Definition untouched : Widgets :=
  mkWidgets None (fun _ => None) (fun _ => None) (fun _ => EmptyString)
            (fun _ => None).

Definition lower_ascii (a : ascii) : ascii :=
  let n := nat_of_ascii a in
  if ((65 <=? n) && (n <=? 90))%nat then ascii_of_nat (n + 32) else a.

Fixpoint lower (s : string) : string :=
  match s with
  | EmptyString => EmptyString
  | String a s' => String (lower_ascii a) (lower s')
  end.

Fixpoint contains (p s : string) : bool :=
  String.prefix p s ||
  match s with
  | EmptyString => false
  | String _ s' => contains p s'
  end.

Definition metachar (a : ascii) : bool :=
  existsb (Ascii.eqb a)
          (list_ascii_of_string ".^$*+?{}[]\\|()").

(** A small engine for the examples: a pattern without metacharacters is
    searched for as it is written; any other pattern is refused. *)
Definition literal_engine : regex_engine :=
  fun pat case =>
    if existsb metachar (list_ascii_of_string pat) then None
    else Some (fun x => if case then contains pat x
                        else contains (lower pat) (lower x)).

(** Ten rows: an int64 column N = 0, 100, ..., 900 and an object column T
    that reads "x" on the first three rows and "y" on the others. *)
Definition nt_row (k : nat) : Row :=
  mkRow k [VNum (100 * Z.of_nat k);
           VStr (if (k <? 3)%nat then "x" else "y")].

Definition nt_table : DataFrame :=
  mkDataFrame [("N"%string, DInt64); ("T"%string, DObject)]
              (map nt_row (seq 0 10)).

(** The user has picked 0 in the menu of N and "x" in the menu of T. *)
Definition nt_choices : Widgets :=
  mkWidgets None
            (fun c => if String.eqb c "N" then Some [VNum 0]
                      else if String.eqb c "T" then Some [VStr "x"]
                      else None)
            (fun _ => None) (fun _ => EmptyString) (fun _ => None).

(** The user has moved the slider of N (0 to 900 in steps of 9) to
    450..900 and picked "y" in the menu of T. *)
Definition nt_range_choices : Widgets :=
  mkWidgets None
            (fun c => if String.eqb c "T" then Some [VStr "y"] else None)
            (fun c => if String.eqb c "N" then Some (450%Z, 900%Z) else None)
            (fun _ => EmptyString) (fun _ => None).

(** Eleven projects: ten distinct titles and one missing, and a column of
    tag lists. *)
Definition project_titles : list value :=
  [VStr "NYC Taxi Trips"; VStr "Bike Sharing Demand"; VStr "Air Quality";
   VStr "taxi fares"; VStr "Crypto Prices"; VNaN; VStr "Weather Pipeline";
   VStr "Stock Market ETL"; VStr "Spotify Charts"; VStr "Flight Delays";
   VStr "Housing Data"].

Definition projects_table : DataFrame :=
  mkDataFrame [("project_title"%string, DObject); ("tags"%string, DObject)]
              (map (fun kv => mkRow (fst kv) [snd kv; VList [Z.of_nat (fst kv)]])
                   (combine (seq 0 11) project_titles)).

(** The user has typed "taxi" in the box of project_title. *)
Definition taxi_search : Widgets :=
  mkWidgets None (fun _ => None) (fun _ => None)
            (fun c => if String.eqb c "project_title" then "taxi"%string
                      else EmptyString)
            (fun _ => None).

(** The first five rows of [nt_table]: both columns are categorical. *)
Definition nt_head : DataFrame :=
  select nt_table (fun r => (label r <? 5)%nat).

(** Twelve scores, 0..11, the one of row 5 missing. *)
Definition scores_table : DataFrame :=
  mkDataFrame [("score"%string, DFloat64)]
              (map (fun k => mkRow k [if (k =? 5)%nat then VNaN
                                      else VNum (Z.of_nat k)])
                   (seq 0 12)).

(** Two small files: the second has no project_url column and adds a
    Deployment Type column. *)
Definition csv_2021 : DataFrame :=
  mkDataFrame [("project_title"%string, DObject);
               ("project_url"%string, DObject)]
              [mkRow 0 [VStr "NYC Taxi Trips"; VStr "https://github.com/a/taxi"];
               mkRow 1 [VStr "Air Quality"; VNaN]].

Definition csv_2022 : DataFrame :=
  mkDataFrame [("project_title"%string, DObject);
               ("Deployment Type"%string, DObject)]
              [mkRow 0 [VStr "Bike Sharing Demand"; VStr "Batch"];
               mkRow 1 [VStr "Spotify Charts"; VStr "Streaming"];
               mkRow 2 [VStr "Flight Delays"; VNaN]].

(** A disk with the two files of mlzoomcamp and nothing else. *)
Definition sample_disk : filesystem :=
  fun path =>
    if String.eqb path "./Data/mlzoomcamp/2021/data.csv"
    then Some (Ok csv_2021)
    else if String.eqb path "./Data/mlzoomcamp/2022/data.csv"
    then Some (Ok csv_2022)
    else None.

Definition mlzoomcamp_file (course year : string) : DataFrame :=
  if String.eqb year "2021" then csv_2021 else csv_2022.

(** A promotion rule for the examples: object as soon as a table lacks the
    column or the dtypes are not all object. *)
Definition object_promotion (ds : list (option dtype)) : dtype := DObject.

(** ** The caller and further notions for the statements *)

(** What the page shows once the selection is known (lines 121-125 and
    214-217). [Dashboard data] stands for the branch of lines 125-212, which
    works on the loaded table [data]. *)
Inductive page : Type :=
| AskForSelection    (* "Please select at least one course and one year ..." *)
| NoDataLoaded       (* "No data loaded." *)
| Dashboard (data : DataFrame).

(** Truthiness of a Python list. *)
Definition nonempty {A : Type} (l : list A) : bool :=
  match l with [] => false | _ => true end.

Definition dashboard_page (result_dtype : list (option dtype) -> dtype)
           (fs : filesystem) (selected_courses selected_years : list string)
  : logged page :=
  if nonempty selected_courses && nonempty selected_years then
    data <! load_data result_dtype fs selected_courses selected_years ;;
    match data with
    | Some d =>
        _ <! print "Data loaded successfully." ;;
        done (Dashboard d)
    | None => done NoDataLoaded
    end
  else done AskForSelection.

(** The exception of the first pair, in order, whose file exists and does
    not parse. *)
Fixpoint first_failure (fs : filesystem) (pairs : list (string * string))
  : option exn :=
  match pairs with
  | [] => None
  | p :: rest =>
      match fs (data_path (fst p) (snd p)) with
      | Some (Raise e) => Some e
      | _ => first_failure fs rest
      end
  end.

(** The lines printed for the pairs, up to and including such a pair. *)
Fixpoint printed_lines (fs : filesystem) (pairs : list (string * string))
  : list string :=
  match pairs with
  | [] => []
  | p :: rest =>
      let path := data_path (fst p) (snd p) in
      match fs path with
      | None => ("File not found: " ++ path)%string :: printed_lines fs rest
      | Some (Ok _) =>
          ("Loading data from " ++ path)%string :: printed_lines fs rest
      | Some (Raise _) => [("Loading data from " ++ path)%string]
      end
  end.

(** Every row has one cell per column. *)
Definition rectangular (df : DataFrame) : bool :=
  forallb (fun r => (List.length (cells r) =? List.length (columns df))%nat)
          (rows df).

(** The widgets of the columns [cs] are untouched. *)
Definition untouched_on (ui : Widgets) (cs : list string) : Prop :=
  forall c, In c cs ->
    w_multiselect ui c = None /\ w_slider ui c = None /\
    w_text ui c = EmptyString.

(** Two users have entered the same in the widgets of [c]. *)
Definition same_choices (ui ui' : Widgets) (c : string) : Prop :=
  w_multiselect ui c = w_multiselect ui' c /\
  w_slider ui c = w_slider ui' c /\
  w_text ui c = w_text ui' c /\
  w_checkbox ui c = w_checkbox ui' c.


(** The number of rows of what [load_data] returns; [None] has none. *)
Definition row_count (data : option DataFrame) : nat :=
  match data with
  | Some d => List.length (rows d)
  | None => O
  end.

(** More sample inputs: [nt_table] without its rows, and a user who has
    typed an unbalanced parenthesis in the box of project_title. *)
Definition nt_no_rows : DataFrame := mkDataFrame (columns nt_table) [].


(** * Properties *)

(** ** Lists *)

Lemma subseq_refl {A : Type} (l : list A) : subseq l l.
Proof. induction l; constructor; assumption. Qed.

Lemma subseq_trans {A : Type} (l1 l2 l3 : list A) :
  subseq l1 l2 -> subseq l2 l3 -> subseq l1 l3.
Proof.
  intros H12 H23. revert l1 H12.
  induction H23 as [|x l2 l3 H IH|x l2 l3 H IH]; intros l1 H12.
  - assumption.
  - constructor. apply IH. assumption.
  - inversion H12; subst.
    + constructor. apply IH. assumption.
    + apply subseq_keep. apply IH. assumption.
Qed.

Lemma subseq_filter {A : Type} (p : A -> bool) (l : list A) :
  subseq (filter p l) l.
Proof.
  induction l as [|x l IH]; simpl.
  - constructor.
  - destruct (p x); constructor; assumption.
Qed.

Lemma subseq_incl {A : Type} (l1 l2 : list A) :
  subseq l1 l2 -> incl l1 l2.
Proof.
  induction 1 as [|x l1 l2 H IH|x l1 l2 H IH]; intros y Hy.
  - assumption.
  - right. apply IH. assumption.
  - destruct Hy as [->|Hy]; [left; reflexivity | right; apply IH; assumption].
Qed.

Lemma filter_combine_map {A : Type} (f : A -> bool) (l : list A) :
  map fst (filter snd (combine l (map f l))) = filter f l.
Proof.
  induction l as [|x l IH]; simpl.
  - reflexivity.
  - destruct (f x); simpl; rewrite IH; reflexivity.
Qed.

Lemma filter_all {A : Type} (p : A -> bool) (l : list A) :
  (forall x, In x l -> p x = true) -> filter p l = l.
Proof.
  intros H. apply forallb_filter_id. apply forallb_forall. assumption.
Qed.

(** ** Values *)

Lemma value_eqb_eq (a b : value) : value_eqb a b = true <-> a = b.
Proof.
  unfold value_eqb. destruct (value_eq_dec a b); split; congruence.
Qed.

Lemma value_eqb_refl (a : value) : value_eqb a a = true.
Proof. apply value_eqb_eq. reflexivity. Qed.

Lemma existsb_value_In (v : value) (l : list value) :
  existsb (value_eqb v) l = true <-> In v l.
Proof.
  rewrite existsb_exists. split.
  - intros [x [Hx E]]. apply value_eqb_eq in E. subst. assumption.
  - intros H. exists v. split; [assumption | apply value_eqb_refl].
Qed.

Lemma In_distinct (x : value) (l : list value) :
  In x (distinct l) <-> In x l.
Proof.
  induction l as [|y l IH]; simpl.
  - tauto.
  - rewrite filter_In, IH. split.
    + intros [H|[H _]]; auto.
    + intros [H|H]; auto.
      destruct (value_eq_dec y x) as [E|E]; auto.
      right. split; auto.
      destruct (value_eqb y x) eqn:Eb; auto.
      apply value_eqb_eq in Eb. contradiction.
Qed.




Lemma In_numbers (z : Z) (l : list value) :
  In z (numbers l) <-> In (VNum z) l.
Proof.
  unfold numbers. rewrite in_flat_map. split.
  - intros [v [Hv Hz]]. destruct v; simpl in Hz; try contradiction.
    destruct Hz as [->|[]]. assumption.
  - intros H. exists (VNum z). split; [assumption | left; reflexivity].
Qed.

Lemma fold_min_le_init (l : list Z) (a : Z) :
  (fold_left Z.min l a <= a)%Z.
Proof.
  revert a. induction l as [|y l IH]; intros a; simpl.
  - lia.
  - specialize (IH (Z.min a y)). lia.
Qed.

Lemma fold_min_le (l : list Z) (a z : Z) :
  In z l -> (fold_left Z.min l a <= z)%Z.
Proof.
  revert a. induction l as [|y l IH]; intros a H; simpl.
  - destruct H.
  - destruct H as [->|H].
    + pose proof (fold_min_le_init l (Z.min a z)). lia.
    + apply IH. assumption.
Qed.

Lemma fold_max_ge_init (l : list Z) (a : Z) :
  (a <= fold_left Z.max l a)%Z.
Proof.
  revert a. induction l as [|y l IH]; intros a; simpl.
  - lia.
  - specialize (IH (Z.max a y)). lia.
Qed.

Lemma fold_max_ge (l : list Z) (a z : Z) :
  In z l -> (z <= fold_left Z.max l a)%Z.
Proof.
  revert a. induction l as [|y l IH]; intros a H; simpl.
  - destruct H.
  - destruct H as [->|H].
    + pose proof (fold_max_ge_init l (Z.max a z)). lia.
    + apply IH. assumption.
Qed.

Lemma series_min_max_bounds (s : Series) (z : Z) :
  In (VNum z) (s_values s) ->
  exists lo hi, series_min s = Some lo /\ series_max s = Some hi /\
                (lo <= z <= hi)%Z.
Proof.
  intros H. apply In_numbers in H.
  unfold series_min, series_max, fold_opt.
  destruct (numbers (s_values s)) as [|a l]; [destruct H|].
  exists (fold_left Z.min l a), (fold_left Z.max l a).
  repeat split; destruct H as [->|H].
  - apply fold_min_le_init.
  - apply fold_min_le; assumption.
  - apply fold_max_ge_init.
  - apply fold_max_ge; assumption.
Qed.

(** ** One filter step, as a row selection *)

Lemma getitem_col (df : DataFrame) (c : string) (i : nat) (d : dtype) :
  col_index c (columns df) = Some (i, d) ->
  getitem df c = Ok (mkSeries d (map (cell i) (rows df))).
Proof. intros H. unfold getitem. rewrite H. reflexivity. Qed.

Lemma getitem_inv (df : DataFrame) (c : string) (s : Series) :
  getitem df c = Ok s ->
  exists i d, col_index c (columns df) = Some (i, d) /\
              s = mkSeries d (map (cell i) (rows df)).
Proof.
  unfold getitem. destruct (col_index c (columns df)) as [[i d]|]; intros H.
  - inversion H. exists i, d. split; reflexivity.
  - discriminate.
Qed.

Lemma boolean_index_isin (df : DataFrame) (i : nat) (d : dtype)
      (chosen : list value) :
  boolean_index df (isin (mkSeries d (map (cell i) (rows df))) chosen)
  = select df (cat_keep chosen i).
Proof.
  unfold boolean_index, isin, select, cat_keep. simpl.
  rewrite map_map. f_equal.
  apply (filter_combine_map (fun r => existsb (value_eqb (cell i r)) chosen)).
Qed.

Lemma boolean_index_between (df : DataFrame) (i : nat) (d : dtype)
      (lo hi : Z) :
  boolean_index df (between (mkSeries d (map (cell i) (rows df))) lo hi)
  = select df (num_keep lo hi i).
Proof.
  unfold boolean_index, between, select. simpl.
  rewrite map_map. f_equal.
  apply (filter_combine_map (num_keep lo hi i)).
Qed.

Lemma boolean_index_text (df : DataFrame) (i : nat)
      (search : string -> bool) :
  boolean_index df
    (map (fun v => match v with VStr x => search x | _ => false end)
         (map (cell i) (rows df)))
  = select df (text_keep search i).
Proof.
  unfold boolean_index, select. rewrite map_map. f_equal.
  apply (filter_combine_map (text_keep search i)).
Qed.

Lemma select_all (df : DataFrame) (p : Row -> bool) :
  (forall r, In r (rows df) -> p r = true) -> select df p = df.
Proof.
  intros H. unfold select. rewrite filter_all by assumption.
  destruct df; reflexivity.
Qed.

Section FilterFacts.

Variable re_compile : regex_engine.

Lemma apply_filter_shape (ui : Widgets) (k : kind) (c : string)
      (dff d' : DataFrame) :
  apply_filter re_compile ui k c dff = Ok d' ->
  exists p, d' = select dff p.
Proof.
  unfold apply_filter. intros H.
  destruct (getitem dff c) as [s|e] eqn:Hs; simpl in H; [|discriminate].
  apply getitem_inv in Hs. destruct Hs as [i [d [Hi ->]]].
  destruct k.
  - rewrite boolean_index_isin in H. inversion H. eauto.
  - destruct (st_slider _ _ _ _) as [[lo hi]|e]; simpl in H; [|discriminate].
    rewrite boolean_index_between in H. inversion H. eauto.
  - destruct (truthy _).
    + unfold str_contains in H.
      destruct (str_accessor_ok _); [|discriminate].
      destruct (re_compile _ _) as [search|]; simpl in H; [|discriminate].
      rewrite boolean_index_text in H. inversion H. eauto.
    + inversion H. exists (fun _ => true). symmetry. apply select_all. auto.
Qed.

Lemma filter_column_shape (ui : Widgets) (df dff d' : DataFrame)
      (c : string) :
  filter_column re_compile ui df dff c = Ok d' ->
  exists p, d' = select dff p.
Proof.
  unfold filter_column. intros H.
  destruct (getitem df c) as [s0|e]; simpl in H; [|discriminate].
  destruct (forallb hashable (s_values s0)).
  - destruct (getitem dff c) as [s|e]; simpl in H; [|discriminate].
    eapply apply_filter_shape; eassumption.
  - inversion H. exists (fun _ => true). symmetry. apply select_all. auto.
Qed.

Lemma filter_columns_shape (ui : Widgets) (df : DataFrame)
      (cs : list string) (dff t : DataFrame) :
  filter_columns re_compile ui df dff cs = Ok t ->
  columns t = columns dff /\ subseq (rows t) (rows dff).
Proof.
  revert dff. induction cs as [|c cs IH]; intros dff H; simpl in H.
  - inversion H. split; [reflexivity | apply subseq_refl].
  - destruct (filter_column re_compile ui df dff c) as [d'|e] eqn:Hc;
      simpl in H; [|discriminate].
    apply filter_column_shape in Hc. destruct Hc as [p ->].
    apply IH in H. destruct H as [Hcols Hrows]. split.
    + assumption.
    + eapply subseq_trans; [eassumption|]. apply subseq_filter.
Qed.

(** C10: every row of the table returned by [filter_dataframe] is a row of
    the input table, with its label and cells: the rows of the result are
    the rows of the input with some of them removed, in the same order, and
    the columns are those of the input. *)
Theorem filter_dataframe_only_removes_rows
        (ui : Widgets) (df t : DataFrame) :
  filter_dataframe re_compile ui df = Ok t ->
  columns t = columns df /\
  subseq (rows t) (rows df) /\
  (forall r, In r (rows t) -> In r (rows df)).
Proof.
  unfold filter_dataframe, copy. intros H.
  apply filter_columns_shape in H. destruct H as [Hc Hr].
  repeat split; try assumption.
  apply subseq_incl. assumption.
Qed.

(** *** The three branches *)


Lemma cat_keep_default (dff : DataFrame) (i : nat) (r : Row) :
  In r (rows dff) ->
  cat_keep (distinct (map (cell i) (rows dff))) i r = true.
Proof.
  intros H. unfold cat_keep. apply existsb_value_In. apply In_distinct.
  apply in_map. assumption.
Qed.



Lemma apply_filter_text_empty (ui : Widgets) (c : string)
      (dff : DataFrame) (i : nat) (d : dtype) :
  col_index c (columns dff) = Some (i, d) ->
  w_text ui c = EmptyString ->
  apply_filter re_compile ui FreeText c dff = Ok dff.
Proof.
  intros Hi Ht. unfold apply_filter. rewrite (getitem_col _ _ Hi). simpl.
  unfold st_text_input. rewrite Ht. reflexivity.
Qed.

Lemma apply_filter_text (ui : Widgets) (c : string)
      (dff : DataFrame) (i : nat) (d : dtype) (search : string -> bool) :
  col_index c (columns dff) = Some (i, d) ->
  w_text ui c <> EmptyString ->
  str_accessor_ok (mkSeries d (map (cell i) (rows dff))) = true ->
  re_compile (w_text ui c) (st_checkbox false (w_checkbox ui c))
  = Some search ->
  apply_filter re_compile ui FreeText c dff
  = Ok (select dff (text_keep search i)).
Proof.
  intros Hi Ht Hok Hre. unfold apply_filter.
  rewrite (getitem_col _ _ Hi). simpl. unfold st_text_input.
  destruct (w_text ui c) eqn:E; [contradiction Ht; reflexivity|].
  simpl. unfold str_contains. rewrite Hok, Hre. simpl.
  rewrite boolean_index_text. reflexivity.
Qed.

Lemma apply_filter_text_inv (ui : Widgets) (c : string)
      (dff t : DataFrame) (i : nat) (d : dtype) :
  col_index c (columns dff) = Some (i, d) ->
  w_text ui c <> EmptyString ->
  apply_filter re_compile ui FreeText c dff = Ok t ->
  str_accessor_ok (mkSeries d (map (cell i) (rows dff))) = true /\
  exists search,
    re_compile (w_text ui c) (st_checkbox false (w_checkbox ui c))
    = Some search /\
    t = select dff (text_keep search i).
Proof.
  intros Hi Ht H. unfold apply_filter in H.
  rewrite (getitem_col _ _ Hi) in H. simpl in H. unfold st_text_input in H.
  destruct (w_text ui c) eqn:E; [contradiction Ht; reflexivity|].
  simpl in H. unfold str_contains in H.
  destruct (str_accessor_ok _); [|discriminate].
  destruct (re_compile _ _) as [search|]; simpl in H; [|discriminate].
  rewrite boolean_index_text in H. inversion H.
  split; [reflexivity|]. exists search. split; reflexivity.
Qed.

Lemma classify_numeric_inv (s : Series) :
  classify s = Numeric ->
  is_categorical_dtype (s_dtype s) = false /\
  is_numeric_dtype (s_dtype s) = true /\
  (10 <= nunique s)%nat.
Proof.
  unfold classify.
  destruct (is_categorical_dtype (s_dtype s)); simpl; [discriminate|].
  destruct (Nat.ltb_spec (nunique s) 10); [discriminate|].
  destruct (is_numeric_dtype (s_dtype s)); [|discriminate].
  auto.
Qed.




Lemma filter_none {A : Type} (p : A -> bool) (l : list A) :
  (forall x, In x l -> p x = false) -> filter p l = [].
Proof.
  induction l as [|x l IH]; intros H; simpl.
  - reflexivity.
  - rewrite (H x (or_introl eq_refl)). apply IH.
    intros y Hy. apply H. right. assumption.
Qed.

Lemma filter_column_hashable (ui : Widgets) (df dff : DataFrame)
      (c : string) (s0 s : Series) :
  getitem df c = Ok s0 ->
  forallb hashable (s_values s0) = true ->
  getitem dff c = Ok s ->
  filter_column re_compile ui df dff c
  = apply_filter re_compile ui (classify s) c dff.
Proof.
  intros H0 Hh Hs. unfold filter_column. rewrite H0. simpl.
  rewrite Hh, Hs. reflexivity.
Qed.

(** C6: on a column classified as free text, an empty pattern keeps the
    current table as it is; with a pattern, no row whose value in the column
    is missing is kept and no row is added; and with the case box untouched
    the pattern is compiled with [case = false], that is ignoring case, the
    rows kept being those whose string matches. *)
Theorem free_text_filter
        (ui : Widgets) (df dff : DataFrame) (c : string) (s0 s : Series) :
  getitem df c = Ok s0 ->
  forallb hashable (s_values s0) = true ->
  getitem dff c = Ok s ->
  classify s = FreeText ->
  (w_text ui c = EmptyString ->
   filter_column re_compile ui df dff c = Ok dff) /\
  (w_text ui c <> EmptyString ->
   forall t, filter_column re_compile ui df dff c = Ok t ->
             subseq (rows t) (rows dff) /\
             rows (rows_where t c isna) = []) /\
  (w_text ui c <> EmptyString ->
   w_checkbox ui c = None ->
   forall search,
     str_accessor_ok s = true ->
     re_compile (w_text ui c) false = Some search ->
     filter_column re_compile ui df dff c
     = Ok (rows_where dff c
             (fun v => match v with VStr x => search x | _ => false end))).
Proof.
  intros H0 Hh Hs Hk.
  rewrite (@filter_column_hashable ui df dff c s0 s H0 Hh Hs), Hk.
  apply getitem_inv in Hs. destruct Hs as [i [d [Hi ->]]].
  split; [|split].
  - intros Ht. apply (@apply_filter_text_empty ui c dff i d Hi Ht).
  - intros Ht t Hstep.
    destruct (@apply_filter_text_inv ui c dff t i d Hi Ht Hstep)
      as [_ [search [_ ->]]].
    split.
    + apply subseq_filter.
    + unfold rows_where. simpl. rewrite Hi. simpl.
      apply filter_none. intros r Hr. apply filter_In in Hr.
      destruct Hr as [_ Hr]. unfold text_keep in Hr.
      destruct (cell i r); try discriminate. reflexivity.
  - intros Ht Hbox search Hok Hre.
    rewrite (@apply_filter_text ui c dff i d search Hi Ht Hok).
    + unfold rows_where. rewrite Hi. reflexivity.
    + rewrite Hbox. assumption.
Qed.

Lemma filter_column_unhashable (ui : Widgets) (df dff : DataFrame)
      (c : string) :
  unhashable_column df c ->
  filter_column re_compile ui df dff c = Ok dff.
Proof.
  intros [s [Hs Hh]]. unfold filter_column. rewrite Hs. simpl.
  rewrite Hh. reflexivity.
Qed.

Lemma filter_columns_without (ui : Widgets) (df : DataFrame) (c : string)
      (cs : list string) (dff : DataFrame) :
  unhashable_column df c ->
  filter_columns re_compile ui df dff cs
  = filter_columns re_compile ui df dff
      (filter (fun x => negb (String.eqb x c)) cs).
Proof.
  intros Hu. revert dff. induction cs as [|x cs IH]; intros dff; simpl.
  - reflexivity.
  - destruct (String.eqb_spec x c) as [->|Hne]; simpl.
    + rewrite (@filter_column_unhashable ui df dff c Hu). simpl. apply IH.
    + destruct (filter_column re_compile ui df dff x); simpl;
        [apply IH | reflexivity].
Qed.

Lemma filter_columns_with_columns (ui : Widgets) (sel : list string)
      (df : DataFrame) (cs : list string) (dff : DataFrame) :
  filter_columns re_compile (with_columns ui sel) df dff cs
  = filter_columns re_compile ui df dff cs.
Proof.
  revert dff. induction cs as [|x cs IH]; intros dff; simpl.
  - reflexivity.
  - change (filter_column re_compile (with_columns ui sel) df dff x)
      with (filter_column re_compile ui df dff x).
    destruct (filter_column re_compile ui df dff x); simpl;
      [apply IH | reflexivity].
Qed.

(** C7: a selected column that holds an unhashable value is passed over:
    its step returns the current table as it is, without raising, and the
    whole call returns what it returns when the column is not selected, so
    the filters of the other columns are applied as usual. *)
Theorem unhashable_column_passes_through
        (ui : Widgets) (df : DataFrame) (c : string) :
  unhashable_column df c ->
  (forall dff, filter_column re_compile ui df dff c = Ok dff) /\
  filter_dataframe re_compile ui df
  = filter_dataframe re_compile
      (with_columns ui (filter (fun x => negb (String.eqb x c))
                               (selected_columns ui df)))
      df.
Proof.
  intros Hu. split.
  - intros dff. apply filter_column_unhashable. assumption.
  - unfold filter_dataframe, copy. simpl.
    rewrite filter_columns_with_columns.
    apply filter_columns_without. assumption.
Qed.

(** *** A run as one selection *)

Lemma num_keep_is_num (s : Series) (dff : DataFrame) (i : nat) (d : dtype)
      (lo hi : Z) (r : Row) :
  s = mkSeries d (map (cell i) (rows dff)) ->
  series_min s = Some lo -> series_max s = Some hi ->
  In r (rows dff) ->
  num_keep lo hi i r = is_num i r.
Proof.
  intros -> Hlo Hhi Hr. unfold num_keep, is_num.
  destruct (cell i r) as [|z| |] eqn:E; try reflexivity.
  assert (Hz : In (VNum z) (s_values (mkSeries d (map (cell i) (rows dff))))).
  { simpl. rewrite <- E. apply in_map. assumption. }
  destruct (series_min_max_bounds _ _ Hz) as [lo' [hi' [Hlo' [Hhi' Hb]]]].
  rewrite Hlo in Hlo'. rewrite Hhi in Hhi'.
  inversion Hlo'. inversion Hhi'. subst.
  apply andb_true_iff. split; apply Z.leb_le; lia.
Qed.

Lemma apply_filter_keeps (ui : Widgets) (k : kind) (c : string)
      (dff d' : DataFrame) :
  apply_filter re_compile ui k c dff = Ok d' ->
  d' = select dff (keeps re_compile ui (columns dff) (c, k)).
Proof.
  intros H. unfold apply_filter in H.
  destruct (getitem dff c) as [s|e] eqn:Hs; simpl in H; [|discriminate].
  apply getitem_inv in Hs. destruct Hs as [i [d [Hi ->]]].
  unfold select, keeps. simpl. rewrite Hi.
  destruct k.
  - rewrite boolean_index_isin in H. inversion H.
    unfold select. f_equal. unfold st_multiselect.
    destruct (w_multiselect ui c) as [chosen|]; [reflexivity|].
    apply filter_ext_in. intros r Hr. apply cat_keep_default. assumption.
  - destruct (series_min _) as [lo|] eqn:Hlo; simpl in H; [|discriminate].
    destruct (series_max _) as [hi|] eqn:Hhi; simpl in H; [|discriminate].
    rewrite boolean_index_between in H. inversion H.
    unfold select. f_equal.
    destruct (w_slider ui c) as [[a b]|]; [reflexivity|]. simpl.
    apply filter_ext_in. intros r Hr.
    eapply num_keep_is_num; [reflexivity| | |]; eassumption.
  - unfold st_text_input in H. destruct (truthy (w_text ui c)).
    + unfold str_contains in H.
      destruct (str_accessor_ok _); [|discriminate].
      destruct (re_compile _ _) as [search|]; simpl in H; [|discriminate].
      rewrite boolean_index_text in H. inversion H. reflexivity.
    + inversion H. rewrite filter_true. destruct d'; reflexivity.
Qed.

Lemma select_select (df : DataFrame) (p q : Row -> bool) :
  select (select df p) q = select df (fun r => p r && q r).
Proof.
  unfold select. simpl. f_equal.
  induction (rows df) as [|x l IH]; simpl.
  - reflexivity.
  - destruct (p x); simpl; [destruct (q x)|]; rewrite IH; reflexivity.
Qed.

Lemma filter_columns_keeps (ui : Widgets) (df : DataFrame)
      (cs : list string) (dff t : DataFrame) :
  filter_columns re_compile ui df dff cs = Ok t ->
  t = select dff
        (fun r => forallb (fun w => keeps re_compile ui (columns dff) w r)
                          (widgets_shown re_compile ui df dff cs)).
Proof.
  revert dff. induction cs as [|c cs IH]; intros dff H; simpl in *.
  - inversion H. symmetry. apply select_all. reflexivity.
  - unfold filter_column in H.
    destruct (getitem df c) as [s0|e]; simpl in H; [|discriminate].
    destruct (forallb hashable (s_values s0)).
    + destruct (getitem dff c) as [s|e]; simpl in H; [|discriminate].
      destruct (apply_filter re_compile ui (classify s) c dff)
        as [d'|e] eqn:Hstep; simpl in H; [|discriminate].
      apply IH in H. rewrite H.
      rewrite (apply_filter_keeps _ _ _ _ Hstep) at 1.
      rewrite select_select.
      rewrite (apply_filter_keeps _ _ _ _ Hstep). reflexivity.
    + apply IH. assumption.
Qed.

Lemma forallb_same_members {A : Type} (f : A -> bool) (l1 l2 : list A) :
  (forall x, In x l1 <-> In x l2) -> forallb f l1 = forallb f l2.
Proof.
  intros H.
  destruct (forallb f l1) eqn:E1, (forallb f l2) eqn:E2; try reflexivity.
  - rewrite forallb_forall in E1.
    assert (E : forallb f l2 = true).
    { apply forallb_forall. intros x Hx. apply E1, H. assumption. }
    congruence.
  - rewrite forallb_forall in E2.
    assert (E : forallb f l1 = true).
    { apply forallb_forall. intros x Hx. apply E2, H. assumption. }
    congruence.
Qed.

(** C1, amended: with the same table and the same per-column choices, two
    orders of the selected columns that make the loop display the same
    widgets (each column gets the same branch in both orders) return the
    same table, when both runs complete. *)
Theorem same_widgets_same_table
        (ui : Widgets) (df : DataFrame) (cs1 cs2 : list string)
        (t1 t2 : DataFrame) :
  filter_dataframe re_compile (with_columns ui cs1) df = Ok t1 ->
  filter_dataframe re_compile (with_columns ui cs2) df = Ok t2 ->
  (forall w, In w (widgets_shown re_compile ui df df cs1) <->
             In w (widgets_shown re_compile ui df df cs2)) ->
  t1 = t2.
Proof.
  unfold filter_dataframe, copy. simpl. intros H1 H2 Hsame.
  rewrite filter_columns_with_columns in H1, H2.
  apply filter_columns_keeps in H1. apply filter_columns_keeps in H2.
  rewrite H1, H2. unfold select. f_equal.
  apply filter_ext. intros r. apply forallb_same_members. assumption.
Qed.

(** *** Filtering the result again *)

Lemma col_index_In (c : string) (cols : list (string * dtype))
      (i : nat) (d : dtype) :
  col_index c cols = Some (i, d) -> In c (map fst cols).
Proof.
  revert i. induction cols as [|[n dn] cols IH]; intros i H; simpl in *.
  - discriminate.
  - destruct (String.eqb_spec c n) as [->|Hne].
    + left. reflexivity.
    + destruct (col_index c cols) as [[j dj]|]; [|discriminate].
      inversion H. subst. right. eapply IH. reflexivity.
Qed.


Lemma well_typed_numeric (df : DataFrame) (c : string) (i : nat) (d : dtype) :
  well_typed df = true ->
  col_index c (columns df) = Some (i, d) ->
  is_numeric_dtype d = true ->
  numeric_cells (mkSeries d (map (cell i) (rows df))) = true.
Proof.
  intros Hwt Hi Hnum. unfold well_typed in Hwt.
  rewrite forallb_forall in Hwt.
  specialize (Hwt c (col_index_In _ _ Hi)).
  rewrite (getitem_col _ _ Hi) in Hwt. simpl in Hwt.
  rewrite Hnum in Hwt. assumption.
Qed.

Lemma incl_cells (i : nat) (l1 l2 : list Row) :
  incl l1 l2 -> incl (map (cell i) l1) (map (cell i) l2).
Proof.
  intros H v Hv. apply in_map_iff in Hv. destruct Hv as [r [<- Hr]].
  apply in_map. apply H. assumption.
Qed.









Lemma classify_cases (s : Series) :
  (classify s = Categorical <->
   is_categorical_dtype (s_dtype s) = true \/ (nunique s < 10)%nat) /\
  (classify s = Numeric <->
   classify s <> Categorical /\ is_numeric_dtype (s_dtype s) = true) /\
  (classify s = FreeText <->
   classify s <> Categorical /\ is_numeric_dtype (s_dtype s) = false).
Proof.
  unfold classify.
  destruct (is_categorical_dtype (s_dtype s)); simpl.
  - intuition congruence.
  - destruct (Nat.ltb_spec (nunique s) 10).
    + intuition congruence.
    + destruct (is_numeric_dtype (s_dtype s));
        intuition (try congruence; try lia).
Qed.

(** C9: the branch of a selected column is chosen by classifying the column
    of the partially filtered table, the one left by the filters of the
    columns before it (categorical when the dtype is categorical or fewer
    than 10 distinct values are left, else numeric when the dtype is
    numeric, else free text), and the step filters that table; on
    [nt_table] with T filtered first, N is numeric in the input and
    categorical at its turn, and the step returns something else than it
    would with the branch chosen from the input. *)
Theorem classification_reads_filtered_table
        (ui : Widgets) (df dff : DataFrame) (c : string)
        (rest : list string) (s0 s : Series) :
  getitem df c = Ok s0 ->
  forallb hashable (s_values s0) = true ->
  getitem dff c = Ok s ->
  filter_columns re_compile ui df dff (c :: rest)
  = (d' <- apply_filter re_compile ui (classify s) c dff ;;
     filter_columns re_compile ui df d' rest)
  /\
  ((classify s = Categorical <->
    is_categorical_dtype (s_dtype s) = true \/ (nunique s < 10)%nat) /\
   (classify s = Numeric <->
    classify s <> Categorical /\ is_numeric_dtype (s_dtype s) = true) /\
   (classify s = FreeText <->
    classify s <> Categorical /\ is_numeric_dtype (s_dtype s) = false))
  /\
  exists sN d' sN',
    getitem nt_table "N" = Ok sN /\ classify sN = Numeric /\
    filter_column re_compile nt_range_choices nt_table nt_table "T" = Ok d' /\
    getitem d' "N" = Ok sN' /\ classify sN' = Categorical /\
    filter_column re_compile nt_range_choices nt_table d' "N"
    <> filter_column_from_input re_compile nt_range_choices nt_table d' "N".
Proof.
  intros H0 Hh Hs. split; [|split].
  - simpl. rewrite (@filter_column_hashable ui df dff c s0 s H0 Hh Hs).
    reflexivity.
  - apply classify_cases.
  - eexists. eexists. eexists.
    split; [reflexivity|]. split; [reflexivity|].
    split; [reflexivity|]. split; [reflexivity|]. split; [reflexivity|].
    vm_compute. discriminate.
Qed.

End FilterFacts.

(** ** The object store *)

Lemma extends_refl (h : heap) : extends h h.
Proof. exists []. rewrite app_nil_r. reflexivity. Qed.

Lemma extends_trans (h1 h2 h3 : heap) :
  extends h1 h2 -> extends h2 h3 -> extends h1 h3.
Proof.
  intros [a ->] [b ->]. exists (a ++ b). rewrite app_assoc. reflexivity.
Qed.

Lemma extends_new (h : heap) (d : DataFrame) : extends h (h ++ [d]).
Proof. exists [d]. reflexivity. Qed.

Lemma extends_length (h h' : heap) :
  extends h h' -> (List.length h <= List.length h')%nat.
Proof. intros [a ->]. rewrite length_app. lia. Qed.

Lemma extends_nth (h h' : heap) (r : ref) (d : DataFrame) :
  extends h h' -> nth_error h r = Some d -> nth_error h' r = Some d.
Proof.
  intros [a ->] H. rewrite nth_error_app1; [assumption|].
  apply nth_error_Some. rewrite H. discriminate.
Qed.

Lemma nth_new (h : heap) (d : DataFrame) :
  nth_error (h ++ [d]) (List.length h) = Some d.
Proof.
  rewrite nth_error_app2 by lia. rewrite Nat.sub_diag. reflexivity.
Qed.

Lemma obj_boolean_index_refines (h : heap) (r : ref) (d : DataFrame)
      (mask : list bool) :
  nth_error h r = Some d ->
  refines h r (obj_boolean_index r mask h) (Ok (boolean_index d mask)).
Proof.
  intros H. unfold obj_boolean_index, bindM, read, new_object.
  rewrite H. split; simpl.
  - apply extends_new.
  - split; [|right; lia]. eexists. split; [apply nth_new | reflexivity].
Qed.

Lemma ret_refines (h : heap) (r : ref) (d : DataFrame) :
  nth_error h r = Some d -> refines h r (ret r h) (Ok d).
Proof.
  intros H. split; simpl.
  - apply extends_refl.
  - split; [eauto | left; reflexivity].
Qed.

Lemma raise_refines (h : heap) (r : ref) (e : exn) :
  refines h r (Raise e, h) (Raise e).
Proof. split; simpl; [apply extends_refl | reflexivity]. Qed.

Section ObjectFacts.

Variable re_compile : regex_engine.

Lemma apply_filter_obj_refines (ui : Widgets) (k : kind) (c : string)
      (h : heap) (dff : ref) (d1 : DataFrame) :
  nth_error h dff = Some d1 ->
  refines h dff (apply_filter_obj re_compile ui k c dff h)
          (apply_filter re_compile ui k c d1).
Proof.
  intros H. unfold apply_filter_obj, apply_filter.
  unfold bindM at 1. unfold obj_getitem, bindM at 1, read, lift.
  rewrite H. destruct (getitem d1 c) as [s|e]; simpl;
    [|apply raise_refines].
  destruct k.
  - apply obj_boolean_index_refines. assumption.
  - unfold bindM, lift.
    destruct (st_slider _ _ _ _) as [[lo hi]|e]; simpl;
      [|apply raise_refines].
    apply obj_boolean_index_refines. assumption.
  - destruct (truthy _).
    + unfold bindM, lift.
      destruct (str_contains _ _ _ _) as [mask|e]; simpl;
        [|apply raise_refines].
      apply obj_boolean_index_refines. assumption.
    + apply ret_refines. assumption.
Qed.

Lemma apply_filter_obj_new (ui : Widgets) (k : kind) (c : string)
      (h h' : heap) (dff r : ref) :
  apply_filter_obj re_compile ui k c dff h = (Ok r, h') ->
  (k = FreeText /\ w_text ui c = EmptyString /\ r = dff /\ h' = h) \/
  (r = List.length h /\ exists t, h' = h ++ [t]).
Proof.
  unfold apply_filter_obj.
  unfold bindM at 1. unfold obj_getitem, bindM at 1, read, lift.
  destruct (nth_error h dff) as [d1|]; [|discriminate].
  destruct (getitem d1 c) as [s|e]; [|discriminate].
  assert (Hmask : forall mask,
             obj_boolean_index dff mask h = (Ok r, h') ->
             r = List.length h /\ exists t, h' = h ++ [t]).
  { intros mask. unfold obj_boolean_index, bindM, read, new_object.
    destruct (nth_error h dff); [|discriminate].
    intros E. inversion E. eauto. }
  destruct k.
  - intros E. right. eapply Hmask. eassumption.
  - unfold bindM, lift.
    destruct (st_slider _ _ _ _) as [[lo hi]|e]; [|discriminate].
    intros E. right. eapply Hmask. eassumption.
  - unfold st_text_input. destruct (w_text ui c) as [|a pat]; simpl.
    + unfold ret. intros E. inversion E. left. auto.
    + unfold bindM, lift.
      destruct (str_contains _ _ _ _) as [mask|e]; [|discriminate].
      intros E. right. eapply Hmask. eassumption.
Qed.

Lemma filter_column_obj_refines (ui : Widgets) (c : string)
      (h : heap) (df dff : ref) (d0 d1 : DataFrame) :
  nth_error h df = Some d0 ->
  nth_error h dff = Some d1 ->
  refines h dff (filter_column_obj re_compile ui df dff c h)
          (filter_column re_compile ui d0 d1 c).
Proof.
  intros H0 H1. unfold filter_column_obj, filter_column.
  unfold bindM at 1. unfold obj_getitem at 1, bindM at 1, read, lift.
  rewrite H0. destruct (getitem d0 c) as [s0|e]; simpl;
    [|apply raise_refines].
  destruct (forallb hashable (s_values s0)); [|apply ret_refines; assumption].
  unfold bindM at 1. unfold obj_getitem at 1, bindM at 1, read, lift.
  rewrite H1. destruct (getitem d1 c) as [s|e] eqn:Hs; simpl;
    [|apply raise_refines].
  apply apply_filter_obj_refines. assumption.
Qed.

Lemma filter_columns_obj_refines (ui : Widgets) (cs : list string)
      (h : heap) (df dff : ref) (d0 d1 : DataFrame) :
  nth_error h df = Some d0 ->
  nth_error h dff = Some d1 ->
  refines h dff (filter_columns_obj re_compile ui df dff cs h)
          (filter_columns re_compile ui d0 d1 cs).
Proof.
  revert h dff d1. induction cs as [|c cs IH]; intros h dff d1 H0 H1; simpl.
  - apply ret_refines. assumption.
  - pose proof (@filter_column_obj_refines ui c h df dff d0 d1 H0 H1) as Hstep.
    unfold bindM.
    destruct (filter_column_obj re_compile ui df dff c h) as [[r|e] h1].
    + destruct Hstep as [Hext [[t [Ht Hpure]] Hnew]]. simpl in *.
      rewrite Hpure. simpl.
      pose proof (IH h1 r t (@extends_nth h h1 df d0 Hext H0) Ht) as Hrest.
      destruct Hrest as [Hext' Hres]. split.
      * eapply extends_trans; eassumption.
      * destruct (fst (filter_columns_obj re_compile ui df r cs h1));
          [|assumption].
        destruct Hres as [Ht' Hnew']. split; [assumption|].
        pose proof (@extends_length h h1 Hext). lia.
    + destruct Hstep as [Hext Hpure]. simpl in *. rewrite Hpure.
      split; simpl; [assumption | reflexivity].
Qed.

(** C8: a call of [filter_dataframe] leaves every object that is in the
    store when it is called as it is, the table passed in among them; what
    it returns is a new object, which holds the table the function computes
    from the contents of the input; each step of its loop only adds objects
    to the store; and a branch that filters puts its result in a new object
    (only the free-text branch with an empty pattern hands back the current
    one). *)
Theorem filter_dataframe_leaves_input
        (ui : Widgets) (h : heap) (df : ref) (d : DataFrame) :
  nth_error h df = Some d ->
  extends h (snd (filter_dataframe_obj re_compile ui df h)) /\
  nth_error (snd (filter_dataframe_obj re_compile ui df h)) df = Some d /\
  match fst (filter_dataframe_obj re_compile ui df h) with
  | Ok r =>
      (List.length h <= r)%nat /\
      exists t, nth_error (snd (filter_dataframe_obj re_compile ui df h)) r
                = Some t /\
                filter_dataframe re_compile ui d = Ok t
  | Raise e => filter_dataframe re_compile ui d = Raise e
  end /\
  (forall c dff d1,
      nth_error h dff = Some d1 ->
      refines h dff (filter_column_obj re_compile ui df dff c h)
              (filter_column re_compile ui d d1 c)) /\
  (forall k c dff r h',
      apply_filter_obj re_compile ui k c dff h = (Ok r, h') ->
      (k = FreeText /\ w_text ui c = EmptyString /\ r = dff /\ h' = h) \/
      (r = List.length h /\ exists t, h' = h ++ [t])).
Proof.
  intros H.
  assert (Hrun : refines ((h ++ [d]) ++ [d]) (List.length (h ++ [d]))
                   (filter_dataframe_obj re_compile ui df h)
                   (filter_dataframe re_compile ui d)).
  { unfold filter_dataframe_obj, filter_dataframe, copy.
    unfold bindM at 1. unfold obj_copy at 1, bindM at 1, read, new_object.
    rewrite H. unfold copy. unfold bindM at 1.
    rewrite nth_new. unfold bindM at 1.
    unfold obj_copy, bindM at 1, read, new_object. rewrite nth_new.
    unfold copy.
    apply filter_columns_obj_refines.
    - apply (@extends_nth (h ++ [d]) ((h ++ [d]) ++ [d])).
      + apply extends_new.
      + apply nth_new.
    - apply nth_new. }
  destruct Hrun as [Hext Hres].
  assert (Hext0 : extends h (snd (filter_dataframe_obj re_compile ui df h))).
  { eapply extends_trans; [|eassumption].
    exists ([d] ++ [d]). rewrite app_assoc. reflexivity. }
  split; [assumption|]. split; [eapply extends_nth; eassumption|]. split.
  - destruct (fst (filter_dataframe_obj re_compile ui df h)); [|assumption].
    destruct Hres as [Ht Hnew]. split; [|assumption].
    rewrite !length_app in Hnew. simpl in Hnew. lia.
  - split.
    + intros c dff d1 H1. apply filter_column_obj_refines; assumption.
    + intros k c dff r h'. apply apply_filter_obj_new.
Qed.

End ObjectFacts.

(** ** The loader *)

Lemma length_relabel (n : nat) (rs : list Row) :
  List.length (relabel n rs) = List.length rs.
Proof.
  revert n. induction rs as [|r rs IH]; intros n; simpl.
  - reflexivity.
  - rewrite IH. reflexivity.
Qed.

Lemma labels_relabel (n : nat) (rs : list Row) :
  map label (relabel n rs) = seq n (List.length rs).
Proof.
  revert n. induction rs as [|r rs IH]; intros n; simpl.
  - reflexivity.
  - rewrite IH. reflexivity.
Qed.

Lemma cells_relabel (n : nat) (rs : list Row) :
  map cells (relabel n rs) = map cells rs.
Proof.
  revert n. induction rs as [|r rs IH]; intros n; simpl.
  - reflexivity.
  - rewrite IH. reflexivity.
Qed.

Lemma cell_relabel (i n : nat) (rs : list Row) :
  map (cell i) (relabel n rs) = map (cell i) rs.
Proof.
  revert n. induction rs as [|r rs IH]; intros n; simpl.
  - reflexivity.
  - rewrite IH. reflexivity.
Qed.

Lemma length_flat_map_rows {A : Type} (f : A -> list Row) (l : list A) :
  List.length (flat_map f l) = list_sum (map (fun x => List.length (f x)) l).
Proof.
  induction l as [|x l IH]; simpl.
  - reflexivity.
  - rewrite length_app, IH. reflexivity.
Qed.

Lemma col_index_named (c : string) (g : string -> dtype) (cols : list string)
      (i : nat) (d : dtype) :
  col_index c (map (fun x => (x, g x)) cols) = Some (i, d) ->
  nth_error cols i = Some c.
Proof.
  revert i. induction cols as [|x cols IH]; intros i H; simpl in *.
  - discriminate.
  - destruct (String.eqb_spec c x) as [->|Hne].
    + inversion H. reflexivity.
    + destruct (col_index c (map (fun x => (x, g x)) cols)) as [[j dj]|];
        [|discriminate].
      inversion H. subst. simpl. apply (IH j). reflexivity.
Qed.

Lemma cell_reindex (cols : list string) (df : DataFrame) (r : Row)
      (i : nat) (c : string) :
  nth_error cols i = Some c ->
  cell i (reindex cols df r)
  = match col_index c (columns df) with
    | Some (j, _) => cell j r
    | None => VNaN
    end.
Proof.
  intros H. unfold cell at 1, reindex. simpl.
  apply nth_error_nth. erewrite map_nth_error by eassumption. reflexivity.
Qed.

Section LoaderFacts.

Variable result_dtype : list (option dtype) -> dtype.
Variable fs : filesystem.

Lemma load_file_collect (course y : string) (dfs : list DataFrame) :
  fs (data_path course y) = None \/
  (exists d, fs (data_path course y) = Some (Ok d)) ->
  load_file fs course y dfs
  = (log_lines fs [(course, y)], Ok (dfs ++ loaded_files fs [(course, y)])).
Proof.
  unfold load_file, log_lines, loaded_files. simpl.
  intros [E|[d E]]; rewrite E; simpl.
  - rewrite app_nil_r. reflexivity.
  - reflexivity.
Qed.

Lemma log_lines_app (l1 l2 : list (string * string)) :
  log_lines fs (l1 ++ l2) = log_lines fs l1 ++ log_lines fs l2.
Proof. unfold log_lines. apply map_app. Qed.

Lemma loaded_files_app (l1 l2 : list (string * string)) :
  loaded_files fs (l1 ++ l2) = loaded_files fs l1 ++ loaded_files fs l2.
Proof. unfold loaded_files. apply flat_map_app. Qed.

Lemma load_years_collect (course : string) (years : list string)
      (dfs : list DataFrame) :
  (forall y, In y years ->
     fs (data_path course y) = None \/
     exists d, fs (data_path course y) = Some (Ok d)) ->
  load_years fs course years dfs
  = (log_lines fs (map (fun y => (course, y)) years),
     Ok (dfs ++ loaded_files fs (map (fun y => (course, y)) years))).
Proof.
  revert dfs. induction years as [|y years IH]; intros dfs H.
  - simpl. rewrite app_nil_r. reflexivity.
  - change (map (fun y0 => (course, y0)) (y :: years))
      with ([(course, y)] ++ map (fun y0 => (course, y0)) years).
    rewrite log_lines_app, loaded_files_app.
    cbn [load_years].
    rewrite (@load_file_collect course y dfs (H y (or_introl eq_refl))).
    unfold and_then. rewrite IH.
    + cbn [fst snd]. rewrite <- app_assoc. reflexivity.
    + intros y' Hy'. apply H. right. assumption.
Qed.

Lemma load_courses_collect (courses years : list string)
      (dfs : list DataFrame) :
  (forall c y, In c courses -> In y years ->
     fs (data_path c y) = None \/
     exists d, fs (data_path c y) = Some (Ok d)) ->
  load_courses fs courses years dfs
  = (log_lines fs (list_prod courses years),
     Ok (dfs ++ loaded_files fs (list_prod courses years))).
Proof.
  revert dfs. induction courses as [|c courses IH]; intros dfs H.
  - simpl. rewrite app_nil_r. reflexivity.
  - cbn [load_courses list_prod].
    rewrite log_lines_app, loaded_files_app.
    rewrite load_years_collect.
    + unfold and_then. rewrite IH.
      * cbn [fst snd]. rewrite <- app_assoc. reflexivity.
      * intros c' y Hc' Hy. apply H; [right|]; assumption.
    + intros y Hy. apply H; [left; reflexivity | assumption].
Qed.

Lemma loaded_files_missing (pairs : list (string * string)) :
  (forall p, In p pairs -> fs (data_path (fst p) (snd p)) = None) ->
  loaded_files fs pairs = [].
Proof.
  induction pairs as [|p pairs IH]; intros H; simpl.
  - reflexivity.
  - rewrite (H p (or_introl eq_refl)). simpl. apply IH.
    intros q Hq. apply H. right. assumption.
Qed.

Lemma loaded_files_present (file : string -> string -> DataFrame)
      (pairs : list (string * string)) :
  (forall p, In p pairs ->
     fs (data_path (fst p) (snd p)) = Some (Ok (file (fst p) (snd p)))) ->
  loaded_files fs pairs = map (fun p => file (fst p) (snd p)) pairs.
Proof.
  induction pairs as [|p pairs IH]; intros H; simpl.
  - reflexivity.
  - rewrite (H p (or_introl eq_refl)). simpl. f_equal. apply IH.
    intros q Hq. apply H. right. assumption.
Qed.

Lemma reindexed_column (cols : list string) (i : nat) (c : string)
      (dfs : list DataFrame) :
  nth_error cols i = Some c ->
  map (cell i) (flat_map (fun df => map (reindex cols df) (rows df)) dfs)
  = flat_map (fun df => column_or_missing df c) dfs.
Proof.
  intros Hi. induction dfs as [|df dfs IH]; simpl.
  - reflexivity.
  - rewrite map_app, IH. f_equal.
    rewrite map_map. unfold column_or_missing, getitem.
    destruct (col_index c (columns df)) as [[j dj]|] eqn:Hj; simpl;
      apply map_ext; intros r;
      rewrite (@cell_reindex cols df r i c Hi), Hj; reflexivity.
Qed.

Lemma concat_column (dfs : list DataFrame) (c : string) (s : Series) :
  getitem (concat result_dtype dfs) c = Ok s ->
  s_values s = flat_map (fun df => column_or_missing df c) dfs.
Proof.
  intros H. apply getitem_inv in H. destruct H as [i [d [Hi ->]]].
  unfold concat in *. simpl in *.
  apply col_index_named in Hi.
  rewrite cell_relabel. apply reindexed_column. assumption.
Qed.

Lemma flat_map_of_map {A B C : Type} (f : B -> list C) (g : A -> B)
      (l : list A) :
  flat_map f (map g l) = flat_map (fun x => f (g x)) l.
Proof.
  induction l as [|x l IH]; simpl.
  - reflexivity.
  - rewrite IH. reflexivity.
Qed.

Lemma list_prod_nonempty (courses years : list string) :
  courses <> [] -> years <> [] -> list_prod courses years <> [].
Proof.
  destruct courses as [|c cs]; [congruence|].
  destruct years as [|y ys]; [congruence|].
  intros _ _. simpl. discriminate.
Qed.

(** C3: when every selected (course, year) pair has a file that parses, and
    at least one pair is selected, [load_data] returns (having printed one
    line per pair) a table whose row count is the sum of the row counts of
    the files; its columns are those of
    the files in order of first appearance, each of its columns is the
    concatenation, in load order (courses outside, years inside), of that
    column of the files, NaN where a file lacks it, and the rows are
    numbered from 0. *)
Theorem load_data_concatenates
        (file : string -> string -> DataFrame) (courses years : list string) :
  courses <> [] -> years <> [] ->
  (forall c y, In c courses -> In y years ->
     fs (data_path c y) = Some (Ok (file c y))) ->
  exists t,
    load_data result_dtype fs courses years
    = (log_lines fs (list_prod courses years), Ok (Some t)) /\
    List.length (rows t)
    = list_sum (map (fun p => List.length (rows (file (fst p) (snd p))))
                    (list_prod courses years)) /\
    map label (rows t) = seq 0 (List.length (rows t)) /\
    column_names t
    = first_seen (flat_map (fun p => column_names (file (fst p) (snd p)))
                           (list_prod courses years)) /\
    (forall c s, getitem t c = Ok s ->
       s_values s
       = flat_map (fun p => column_or_missing (file (fst p) (snd p)) c)
                  (list_prod courses years)).
Proof.
  intros Hc Hy Hall.
  assert (Hfiles : loaded_files fs (list_prod courses years)
                   = map (fun p => file (fst p) (snd p))
                         (list_prod courses years)).
  { apply loaded_files_present. intros [c y] Hp. simpl.
    apply in_prod_iff in Hp. apply Hall; tauto. }
  unfold load_data. rewrite load_courses_collect.
  - unfold and_then. cbn [app]. rewrite Hfiles.
    remember (map (fun p => file (fst p) (snd p)) (list_prod courses years))
      as files eqn:Hf.
    assert (Hne : files <> []).
    { subst files. intros E. apply map_eq_nil in E.
      apply (list_prod_nonempty Hc Hy E). }
    exists (concat result_dtype files). split.
    { destruct files; [contradiction Hne; reflexivity|].
      cbn [fst snd done]. rewrite app_nil_r. reflexivity. }
    subst files. split; [|split; [|split]].
    + unfold concat. simpl. rewrite length_relabel.
      rewrite length_flat_map_rows, map_map.
      apply f_equal. apply map_ext. intros q. apply length_map.
    + unfold concat. simpl. rewrite labels_relabel, length_relabel.
      reflexivity.
    + unfold concat, column_names. simpl. rewrite map_map. simpl.
      rewrite map_id. rewrite flat_map_of_map. reflexivity.
    + intros c s Hs. rewrite (concat_column _ _ Hs).
      apply flat_map_of_map.
  - intros c y Hcin Hyin. right. eexists. apply Hall; assumption.
Qed.

(** C4: when no selected path exists, [load_data] returns [None] and does
    not raise, having printed "File not found" for each pair; and in
    general a missing path is passed over: as long as the files that exist
    parse, the result is the concatenation of exactly those files, in order,
    or [None] when there is none. *)
Theorem load_data_skips_missing (courses years : list string) :
  (forall c y, In c courses -> In y years ->
     fs (data_path c y) = None \/
     exists d, fs (data_path c y) = Some (Ok d)) ->
  load_data result_dtype fs courses years
  = (log_lines fs (list_prod courses years),
     Ok (match loaded_files fs (list_prod courses years) with
         | [] => None
         | dfs => Some (concat result_dtype dfs)
         end)) /\
  ((forall c y, In c courses -> In y years -> fs (data_path c y) = None) ->
   load_data result_dtype fs courses years
   = (map (fun p => "File not found: " ++ data_path (fst p) (snd p))%string
          (list_prod courses years),
      Ok None)).
Proof.
  intros H.
  assert (Hload : load_data result_dtype fs courses years
                  = (log_lines fs (list_prod courses years),
                     Ok (match loaded_files fs (list_prod courses years) with
                         | [] => None
                         | dfs => Some (concat result_dtype dfs)
                         end))).
  { unfold load_data. rewrite (load_courses_collect _ _ _ H).
    unfold and_then. cbn [app].
    destruct (loaded_files fs (list_prod courses years));
      cbn [fst snd done]; rewrite app_nil_r; reflexivity. }
  split; [assumption|].
  intros Hnone. rewrite Hload, loaded_files_missing.
  - f_equal. unfold log_lines. apply map_ext_in. intros [c y] Hp.
    apply in_prod_iff in Hp. cbn [fst snd].
    rewrite (Hnone c y) by tauto. reflexivity.
  - intros [c y] Hp. simpl. apply in_prod_iff in Hp. apply Hnone; tauto.
Qed.

End LoaderFacts.

(** ** The filter on the sample inputs *)

(** C1 fails as stated: on [nt_table] with the slider of N at 450..900 and
    "y" picked for T, filtering N then T keeps rows 5-9, and filtering T then
    N keeps rows 3-9: after T, N has seven values left, gets a menu instead
    of the slider, and the menu is untouched. *)
Lemma swapped_order_changes_rows :
  exists t1 t2,
    filter_dataframe literal_engine
      (with_columns nt_range_choices ["N"; "T"]%string) nt_table = Ok t1 /\
    filter_dataframe literal_engine
      (with_columns nt_range_choices ["T"; "N"]%string) nt_table = Ok t2 /\
    map label (rows t1) = [5; 6; 7; 8; 9]%nat /\
    map label (rows t2) = [3; 4; 5; 6; 7; 8; 9]%nat /\
    rows t1 <> rows t2.
Proof.
  eexists. eexists.
  split; [vm_compute; reflexivity|].
  split; [vm_compute; reflexivity|].
  split; [reflexivity|]. split; [reflexivity|].
  discriminate.
Qed.

Lemma same_widgets_same_table_witness :
  exists t1 t2,
    filter_dataframe literal_engine
      (with_columns nt_choices ["N"; "T"]%string) nt_head = Ok t1 /\
    filter_dataframe literal_engine
      (with_columns nt_choices ["T"; "N"]%string) nt_head = Ok t2 /\
    map label (rows t1) = [0]%nat /\
    t1 = t2.
Proof.
  eexists. eexists.
  split; [vm_compute; reflexivity|].
  split; [vm_compute; reflexivity|].
  split; [reflexivity|].
  apply (@same_widgets_same_table literal_engine nt_choices nt_head
           ["N"; "T"]%string ["T"; "N"]%string).
  - reflexivity.
  - reflexivity.
  - intros w. vm_compute. tauto.
Defined.




Lemma free_text_filter_witness :
  filter_column literal_engine taxi_search projects_table projects_table
                "project_title"
  = Ok (rows_where projects_table "project_title"
          (fun v => match v with
                    | VStr x => contains "taxi" (lower x)
                    | _ => false
                    end)) /\
  map label
      (rows (rows_where projects_table "project_title"
               (fun v => match v with
                         | VStr x => contains "taxi" (lower x)
                         | _ => false
                         end)))
  = [0; 3]%nat.
Proof.
  split; [|reflexivity].
  destruct (@free_text_filter literal_engine taxi_search projects_table
              projects_table "project_title" _ _
              eq_refl eq_refl eq_refl eq_refl) as [_ [_ H]].
  apply H.
  - discriminate.
  - reflexivity.
  - reflexivity.
  - reflexivity.
Defined.

Lemma unhashable_column_passes_through_witness :
  unhashable_column projects_table "tags" /\
  filter_dataframe literal_engine taxi_search projects_table
  = filter_dataframe literal_engine
      (with_columns taxi_search ["project_title"%string]) projects_table.
Proof.
  assert (Hu : unhashable_column projects_table "tags").
  { eexists. split; reflexivity. }
  split; [exact Hu|].
  exact (proj2 (@unhashable_column_passes_through literal_engine taxi_search
                  projects_table "tags" Hu)).
Defined.

Lemma classification_reads_filtered_table_witness :
  exists s,
    getitem nt_table "T" = Ok s /\
    filter_columns literal_engine nt_range_choices nt_table nt_table
                   ["T"; "N"]%string
    = (d' <- apply_filter literal_engine nt_range_choices (classify s) "T"
                          nt_table ;;
       filter_columns literal_engine nt_range_choices nt_table d'
                      ["N"%string]).
Proof.
  eexists. split; [reflexivity|].
  apply (proj1 (@classification_reads_filtered_table literal_engine
                  nt_range_choices nt_table nt_table "T" ["N"%string] _ _
                  eq_refl eq_refl eq_refl)).
Defined.

Lemma filter_dataframe_only_removes_rows_witness :
  exists t,
    filter_dataframe literal_engine nt_range_choices nt_table = Ok t /\
    columns t = columns nt_table /\
    subseq (rows t) (rows nt_table) /\
    (forall r, In r (rows t) -> In r (rows nt_table)).
Proof.
  eexists. split; [vm_compute; reflexivity|].
  apply (@filter_dataframe_only_removes_rows literal_engine nt_range_choices
           nt_table).
  reflexivity.
Defined.

(** ** The object store and the loader on the sample inputs *)

Lemma filter_dataframe_leaves_input_witness :
  nth_error
    (snd (filter_dataframe_obj literal_engine nt_range_choices 0%nat
                               [nt_table])) 0%nat
  = Some nt_table /\
  fst (filter_dataframe_obj literal_engine nt_range_choices 0%nat [nt_table])
  = Ok 4%nat.
Proof.
  split; [|reflexivity].
  exact (proj1 (proj2 (@filter_dataframe_leaves_input literal_engine
                         nt_range_choices [nt_table] 0%nat nt_table eq_refl))).
Defined.

Lemma load_data_concatenates_witness :
  exists t,
    snd (load_data object_promotion sample_disk
                   ["mlzoomcamp"%string] ["2021"; "2022"]%string)
    = Ok (Some t) /\
    List.length (rows t) = 5%nat /\
    column_names t
    = ["project_title"; "project_url"; "Deployment Type"]%string.
Proof.
  destruct (@load_data_concatenates object_promotion sample_disk
              mlzoomcamp_file ["mlzoomcamp"%string] ["2021"; "2022"]%string)
    as [t [Hload [Hlen [_ [Hcols _]]]]].
  - discriminate.
  - discriminate.
  - intros c y [<-|[]] [<-|[<-|[]]]; reflexivity.
  - exists t. split; [rewrite Hload; reflexivity|]. split.
    + rewrite Hlen. reflexivity.
    + rewrite Hcols. reflexivity.
Defined.

Lemma load_data_skips_missing_witness :
  snd (load_data object_promotion sample_disk
                 ["dezoomcamp"; "mlzoomcamp"]%string
                 ["2021"; "2022"; "2023"]%string)
  = Ok (Some (concat object_promotion [csv_2021; csv_2022])) /\
  load_data object_promotion sample_disk
            ["dezoomcamp"%string] ["2021"; "2022"; "2023"]%string
  = (["File not found: ./Data/dezoomcamp/2021/data.csv";
      "File not found: ./Data/dezoomcamp/2022/data.csv";
      "File not found: ./Data/dezoomcamp/2023/data.csv"]%string,
     Ok None).
Proof.
  split.
  - rewrite (proj1 (@load_data_skips_missing object_promotion sample_disk
                      ["dezoomcamp"; "mlzoomcamp"]%string
                      ["2021"; "2022"; "2023"]%string
                      ltac:(intros c y [<-|[<-|[]]] [<-|[<-|[<-|[]]]];
                            vm_compute; eauto))).
    reflexivity.
  - apply (@load_data_skips_missing object_promotion sample_disk
             ["dezoomcamp"%string] ["2021"; "2022"; "2023"]%string).
    + intros c y [<-|[]] [<-|[<-|[<-|[]]]]; left; reflexivity.
    + intros c y [<-|[]] [<-|[<-|[<-|[]]]]; reflexivity.
Defined.

(** * Further properties of the filter *)

Section FilterMore.

Variable re_compile : regex_engine.

(** The result of [filter_dataframe] is the input with exactly the rows
    that pass every widget the run displays, in their order: the filters
    act as a conjunction. *)
Theorem filter_dataframe_is_conjunction
        (ui : Widgets) (df t : DataFrame) :
  filter_dataframe re_compile ui df = Ok t ->
  columns t = columns df /\
  rows t
  = filter (fun r =>
              forallb (fun w => keeps re_compile ui (columns df) w r)
                      (widgets_shown re_compile ui df df
                                     (selected_columns ui df)))
           (rows df).
Proof.
  unfold filter_dataframe, copy. intros H.
  apply filter_columns_keeps in H. rewrite H. split; reflexivity.
Qed.

Lemma filter_columns_app (ui : Widgets) (df : DataFrame)
      (cs1 cs2 : list string) (dff : DataFrame) :
  filter_columns re_compile ui df dff (cs1 ++ cs2)
  = (d <- filter_columns re_compile ui df dff cs1 ;;
     filter_columns re_compile ui df d cs2).
Proof.
  revert dff. induction cs1 as [|c cs1 IH]; intros dff; simpl.
  - reflexivity.
  - destruct (filter_column re_compile ui df dff c); simpl;
      [apply IH | reflexivity].
Qed.

Lemma filter_column_same_test (ui : Widgets) (df df2 dff : DataFrame)
      (c : string) :
  columns df2 = columns df ->
  incl (rows df2) (rows df) ->
  ~ unhashable_column df c ->
  filter_column re_compile ui df2 dff c = filter_column re_compile ui df dff c.
Proof.
  intros Hcols Hincl Hh. unfold filter_column, getitem. rewrite Hcols.
  destruct (col_index c (columns df)) as [[i d]|] eqn:Hi; simpl;
    [|reflexivity].
  assert (H1 : forallb hashable (map (cell i) (rows df)) = true).
  { destruct (forallb hashable (map (cell i) (rows df))) eqn:E;
      [reflexivity|].
    exfalso. apply Hh. eexists. split; [apply (getitem_col _ _ Hi)|exact E]. }
  rewrite H1.
  assert (H2 : forallb hashable (map (cell i) (rows df2)) = true).
  { rewrite forallb_forall in *. intros v Hv. apply H1.
    apply (incl_cells i Hincl). assumption. }
  rewrite H2. reflexivity.
Qed.

Lemma filter_columns_same_test (ui : Widgets) (df df2 : DataFrame)
      (cs : list string) (dff : DataFrame) :
  columns df2 = columns df ->
  incl (rows df2) (rows df) ->
  (forall c, In c cs -> ~ unhashable_column df c) ->
  filter_columns re_compile ui df2 dff cs
  = filter_columns re_compile ui df dff cs.
Proof.
  intros Hcols Hincl. revert dff.
  induction cs as [|c cs IH]; intros dff Hh; simpl.
  - reflexivity.
  - rewrite (@filter_column_same_test ui df df2 dff c Hcols Hincl)
      by (apply Hh; left; reflexivity).
    destruct (filter_column re_compile ui df dff c); simpl; [|reflexivity].
    apply IH. intros c' Hc'. apply Hh. right. assumption.
Qed.

(** Filtering on the columns [cs1 ++ cs2] in one call is filtering on [cs1]
    and then filtering the result on [cs2] in a second call, provided no
    column of [cs2] holds an unhashable value in the input (the second call
    tests hashability on its own input). *)
Theorem filter_in_two_calls
        (ui : Widgets) (df : DataFrame) (cs1 cs2 : list string) :
  (forall c, In c cs2 -> ~ unhashable_column df c) ->
  filter_dataframe re_compile (with_columns ui (cs1 ++ cs2)) df
  = (t <- filter_dataframe re_compile (with_columns ui cs1) df ;;
     filter_dataframe re_compile (with_columns ui cs2) t).
Proof.
  intros Hh. unfold filter_dataframe, copy. simpl.
  rewrite !filter_columns_with_columns. rewrite filter_columns_app.
  destruct (filter_columns re_compile ui df df cs1) as [t|e] eqn:H1; simpl;
    [|reflexivity].
  rewrite filter_columns_with_columns.
  destruct (@filter_columns_shape re_compile ui df cs1 df t H1)
    as [Hcols Hsub].
  symmetry. apply filter_columns_same_test; auto.
  apply subseq_incl. assumption.
Qed.

Lemma apply_filter_same_choices (ui ui' : Widgets) (k : kind) (c : string)
      (dff : DataFrame) :
  same_choices ui ui' c ->
  apply_filter re_compile ui k c dff = apply_filter re_compile ui' k c dff.
Proof.
  intros [Hm [Hs [Ht Hc]]]. unfold apply_filter.
  rewrite Hm, Hs, Ht, Hc. reflexivity.
Qed.

Lemma filter_columns_same_choices (ui ui' : Widgets) (df : DataFrame)
      (cs : list string) (dff : DataFrame) :
  (forall c, In c cs -> same_choices ui ui' c) ->
  filter_columns re_compile ui df dff cs
  = filter_columns re_compile ui' df dff cs.
Proof.
  revert dff. induction cs as [|c cs IH]; intros dff H; simpl.
  - reflexivity.
  - assert (Hstep : filter_column re_compile ui df dff c
                    = filter_column re_compile ui' df dff c).
    { unfold filter_column.
      destruct (getitem df c) as [s0|e]; simpl; [|reflexivity].
      destruct (forallb hashable (s_values s0)); [|reflexivity].
      destruct (getitem dff c) as [s|e]; simpl; [|reflexivity].
      apply apply_filter_same_choices. apply H. left. reflexivity. }
    rewrite Hstep.
    destruct (filter_column re_compile ui' df dff c); simpl; [|reflexivity].
    apply IH. intros c' Hc'. apply H. right. assumption.
Qed.

(** What is entered in the widgets of a column that is not selected has no
    effect: two users who select the same columns and enter the same in the
    widgets of those columns get the same result. *)
Theorem unselected_widgets_have_no_effect
        (ui ui' : Widgets) (df : DataFrame) :
  w_columns ui = w_columns ui' ->
  (forall c, In c (selected_columns ui df) -> same_choices ui ui' c) ->
  filter_dataframe re_compile ui df = filter_dataframe re_compile ui' df.
Proof.
  intros Hsel H. unfold filter_dataframe, copy.
  unfold selected_columns in H. rewrite <- Hsel.
  apply filter_columns_same_choices. assumption.
Qed.

(** *** When a step raises *)





(** *** The slider *)




(** *** Runs that cannot raise *)

Lemma In_col_index (c : string) (cols : list (string * dtype)) :
  In c (map fst cols) -> exists i d, col_index c cols = Some (i, d).
Proof.
  induction cols as [|[n dn] cols IH]; simpl; intros H.
  - destruct H.
  - destruct (String.eqb_spec c n) as [->|Hne]; [eauto|].
    destruct H as [H|H]; [congruence|].
    destruct (IH H) as [i [d ->]]. eauto.
Qed.





(** *** Tables without rows, columns with few values *)

Lemma filter_columns_no_rows (ui : Widgets) (df dff : DataFrame)
      (cs : list string) :
  rows df = [] -> rows dff = [] -> columns dff = columns df ->
  (forall c, In c cs -> In c (column_names df)) ->
  filter_columns re_compile ui df dff cs = Ok dff.
Proof.
  intros Hdf Hdff Hcols. induction cs as [|c cs IH]; intros H; simpl.
  - reflexivity.
  - destruct (In_col_index _ _ (H c (or_introl eq_refl))) as [i [d Hi]].
    assert (Hstep : filter_column re_compile ui df dff c = Ok dff).
    { unfold filter_column, apply_filter, getitem.
      rewrite Hcols, Hi, Hdf, Hdff. simpl.
      assert (Hk : classify (mkSeries d []) = Categorical).
      { unfold classify, nunique. simpl. rewrite orb_true_r. reflexivity. }
      rewrite Hk. unfold boolean_index. rewrite Hdff. simpl.
      destruct dff as [cols rs]. simpl in *. subst rs. reflexivity. }
    rewrite Hstep. simpl. apply IH.
    intros c' Hc'. apply H. right. assumption.
Qed.

(** A table without rows comes back as it is, whatever is entered in the
    widgets: every selected column has fewer than 10 values and gets a
    menu, and no pattern is ever compiled. *)
Theorem filter_dataframe_no_rows (ui : Widgets) (df : DataFrame) :
  rows df = [] ->
  (forall c, In c (selected_columns ui df) -> In c (column_names df)) ->
  filter_dataframe re_compile ui df = Ok df.
Proof.
  intros Hrows H. unfold filter_dataframe, copy.
  apply filter_columns_no_rows; auto.
Qed.


(** *** Untouched widgets *)

Lemma widgets_shown_column (ui : Widgets) (df : DataFrame)
      (cs : list string) (dff : DataFrame) (c : string) (k : kind) :
  columns dff = columns df ->
  In (c, k) (widgets_shown re_compile ui df dff cs) ->
  In c cs /\
  exists i d, col_index c (columns df) = Some (i, d) /\
              (k = Numeric -> is_numeric_dtype d = true).
Proof.
  revert dff. induction cs as [|x cs IH]; intros dff Hcols H; simpl in H.
  - destruct H.
  - destruct (getitem df x) as [s0|e] eqn:H0; [|destruct H].
    destruct (forallb hashable (s_values s0)).
    + destruct (getitem dff x) as [s|e] eqn:Hs; [|destruct H].
      destruct H as [E|H].
      * inversion E. subst x k. split; [left; reflexivity|].
        apply getitem_inv in Hs. destruct Hs as [i [d [Hi ->]]].
        rewrite Hcols in Hi. exists i, d. split; [exact Hi|].
        intros Hk. apply classify_numeric_inv in Hk. tauto.
      * destruct (apply_filter re_compile ui (classify s) x dff)
          as [d'|e] eqn:Hstep; [|destruct H].
        destruct (@apply_filter_shape re_compile ui (classify s) x dff d' Hstep)
          as [p ->].
        destruct (IH (select dff p) Hcols H) as [Hin Hrest].
        split; [right|]; assumption.
    + destruct (IH dff Hcols H) as [Hin Hrest]. split; [right|]; assumption.
Qed.

Lemma forallb_false_witness {A : Type} (f : A -> bool) (l : list A) :
  forallb f l = false -> exists x, In x l /\ f x = false.
Proof.
  induction l as [|x l IH]; simpl; [discriminate|].
  destruct (f x) eqn:E; simpl.
  - intros H. destruct (IH H) as [y [Hy Hf]]. eauto.
  - intros _. eauto.
Qed.

(** With the widgets of the selected columns untouched, on a table whose
    numeric columns hold numbers and NaN only, the only rows removed are
    rows with a missing value in a selected numeric column: a row without
    one is kept, and a row that is removed has one. *)
Theorem untouched_removes_missing_numbers_only
        (ui : Widgets) (df t : DataFrame) (r : Row) :
  well_typed df = true ->
  untouched_on ui (selected_columns ui df) ->
  filter_dataframe re_compile ui df = Ok t ->
  In r (rows df) ->
  ((forall c i d,
      In c (selected_columns ui df) ->
      col_index c (columns df) = Some (i, d) ->
      is_numeric_dtype d = true -> cell i r <> VNaN) ->
   In r (rows t)) /\
  (~ In r (rows t) ->
   exists c i d,
     In c (selected_columns ui df) /\
     col_index c (columns df) = Some (i, d) /\
     is_numeric_dtype d = true /\ cell i r = VNaN).
Proof.
  intros Hwt Hun Hrun Hr. unfold filter_dataframe, copy in Hrun.
  fold (selected_columns ui df) in Hrun.
  apply filter_columns_keeps in Hrun.
  set (shown := widgets_shown re_compile ui df df (selected_columns ui df))
    in *.
  assert (Hnumcell : forall c i d,
             col_index c (columns df) = Some (i, d) ->
             is_numeric_dtype d = true ->
             cell i r = VNaN \/ exists z, cell i r = VNum z).
  { intros c i d Hi Hnum.
    pose proof (well_typed_numeric _ _ Hwt Hi Hnum) as H.
    unfold numeric_cells in H. simpl in H. rewrite forallb_forall in H.
    specialize (H (cell i r) (in_map _ _ _ Hr)).
    destruct (cell i r); try discriminate; eauto. }
  assert (Hkeep : forall w, In w shown ->
             keeps re_compile ui (columns df) w r = false ->
             exists i d, In (fst w) (selected_columns ui df) /\
                         col_index (fst w) (columns df) = Some (i, d) /\
                         is_numeric_dtype d = true /\ cell i r = VNaN).
  { intros [c k] Hw Hk.
    destruct (@widgets_shown_column ui df (selected_columns ui df) df c k
                eq_refl Hw) as [Hc [i [d [Hi Hnum]]]].
    destruct (Hun c Hc) as [Hm [Hs Ht]].
    unfold keeps in Hk. simpl in Hk. rewrite Hi, Hm, Hs, Ht in Hk.
    destruct k; simpl in Hk; try discriminate.
    exists i, d. split; [exact Hc|]. split; [exact Hi|].
    split; [auto|].
    destruct (Hnumcell c i d Hi (Hnum eq_refl)) as [E|[z E]]; [exact E|].
    unfold is_num in Hk. rewrite E in Hk. discriminate. }
  split.
  - intros Hpresent. rewrite Hrun. simpl. apply filter_In.
    split; [exact Hr|].
    destruct (forallb (fun w => keeps re_compile ui (columns df) w r) shown)
      eqn:E; [reflexivity|].
    apply forallb_false_witness in E. destruct E as [w [Hw Hk]].
    destruct (Hkeep w Hw Hk) as [i [d [Hc [Hi [Hnum Hnan]]]]].
    exfalso. exact (Hpresent (fst w) i d Hc Hi Hnum Hnan).
  - intros Hout.
    destruct (forallb (fun w => keeps re_compile ui (columns df) w r) shown)
      eqn:E.
    + exfalso. apply Hout. rewrite Hrun. simpl. apply filter_In. auto.
    + apply forallb_false_witness in E. destruct E as [w [Hw Hk]].
      destruct (Hkeep w Hw Hk) as [i [d H]]. exists (fst w), i, d. exact H.
Qed.

(** *** Invariants of the table *)

Lemma subseq_map {A B : Type} (f : A -> B) (l1 l2 : list A) :
  subseq l1 l2 -> subseq (map f l1) (map f l2).
Proof. induction 1; simpl; constructor; assumption. Qed.

Lemma subseq_NoDup {A : Type} (l1 l2 : list A) :
  subseq l1 l2 -> NoDup l2 -> NoDup l1.
Proof.
  induction 1 as [|x l1 l2 H IH|x l1 l2 H IH]; intros Hnd.
  - constructor.
  - inversion Hnd. auto.
  - inversion Hnd as [|? ? Hx Hnd']. subst. constructor; [|auto].
    intros Hin. apply Hx. apply (subseq_incl H). assumption.
Qed.

(** Filtering keeps the shape of the table: the result has one cell per
    column in every row if the input has, its numeric columns hold numbers
    and NaN only if those of the input do, and its index labels are
    distinct if those of the input are. *)
Theorem filter_dataframe_keeps_shape (ui : Widgets) (df t : DataFrame) :
  filter_dataframe re_compile ui df = Ok t ->
  (rectangular df = true -> rectangular t = true) /\
  (well_typed df = true -> well_typed t = true) /\
  (NoDup (map label (rows df)) -> NoDup (map label (rows t))).
Proof.
  unfold filter_dataframe, copy. intros H.
  destruct (@filter_columns_shape re_compile ui df _ df t H) as [Hcols Hsub].
  pose proof (subseq_incl Hsub) as Hincl.
  split; [|split].
  - unfold rectangular. rewrite !forallb_forall. rewrite Hcols.
    intros Hr r Hin. apply Hr. apply Hincl. assumption.
  - unfold well_typed, column_names, getitem. rewrite Hcols.
    rewrite !forallb_forall. intros Hwt c Hc. specialize (Hwt c Hc).
    destruct (col_index c (columns df)) as [[i d]|]; [|reflexivity].
    simpl in *. destruct (is_numeric_dtype d); [|reflexivity].
    unfold numeric_cells in *. simpl in *. rewrite forallb_forall in *.
    intros v Hv. apply Hwt. apply (incl_cells i Hincl). assumption.
  - apply subseq_NoDup. apply subseq_map. assumption.
Qed.

End FilterMore.

(** * Further properties of the loader and of its caller *)

Lemma first_seen_NoDup (l : list string) : NoDup l -> first_seen l = l.
Proof.
  induction 1 as [|x l Hx Hnd IH]; simpl.
  - reflexivity.
  - rewrite IH. f_equal. apply filter_all. intros y Hy.
    destruct (String.eqb_spec x y) as [->|Hne]; [contradiction | reflexivity].
Qed.

Lemma reindex_own_columns (cols : list (string * dtype)) (cs : list value) :
  NoDup (map fst cols) ->
  List.length cs = List.length cols ->
  map (fun c => match col_index c cols with
                | Some (i, _) => nth i cs VNaN
                | None => VNaN
                end) (map fst cols)
  = cs.
Proof.
  revert cs. induction cols as [|[n d] cols IH]; intros cs Hnd Hlen.
  - destruct cs; [reflexivity | discriminate].
  - destruct cs as [|v cs]; [discriminate|].
    inversion Hnd as [|? ? Hn Hnd']. subst.
    simpl. rewrite String.eqb_refl. f_equal.
    transitivity (map (fun c => match col_index c cols with
                                | Some (i, _) => nth i cs VNaN
                                | None => VNaN
                                end) (map fst cols)).
    + apply map_ext_in. intros c Hc.
      destruct (String.eqb_spec c n) as [->|Hne]; [contradiction|].
      destruct (col_index c cols) as [[i di]|]; reflexivity.
    + apply IH; [assumption | simpl in Hlen; lia].
Qed.

Section LoaderMore.

Variable result_dtype : list (option dtype) -> dtype.
Variable fs : filesystem.

Lemma first_failure_app (l1 l2 : list (string * string)) :
  first_failure fs (l1 ++ l2)
  = match first_failure fs l1 with
    | Some e => Some e
    | None => first_failure fs l2
    end.
Proof.
  induction l1 as [|p l1 IH]; simpl.
  - reflexivity.
  - destruct (fs (data_path (fst p) (snd p))) as [[d|e]|]; auto.
Qed.

Lemma printed_lines_app (l1 l2 : list (string * string)) :
  printed_lines fs (l1 ++ l2)
  = match first_failure fs l1 with
    | Some _ => printed_lines fs l1
    | None => printed_lines fs l1 ++ printed_lines fs l2
    end.
Proof.
  induction l1 as [|p l1 IH]; cbn [printed_lines first_failure app].
  - reflexivity.
  - destruct (fs (data_path (fst p) (snd p))) as [[d|e]|].
    + rewrite IH. destruct (first_failure fs l1); reflexivity.
    + reflexivity.
    + rewrite IH. destruct (first_failure fs l1); reflexivity.
Qed.

Lemma load_years_outcome (course : string) (years : list string)
      (dfs : list DataFrame) :
  load_years fs course years dfs
  = (printed_lines fs (map (fun y => (course, y)) years),
     match first_failure fs (map (fun y => (course, y)) years) with
     | Some e => Raise e
     | None => Ok (dfs ++ loaded_files fs (map (fun y => (course, y)) years))
     end).
Proof.
  revert dfs. induction years as [|y years IH]; intros dfs.
  - simpl. rewrite app_nil_r. reflexivity.
  - cbn [load_years map printed_lines first_failure fst snd].
    unfold load_file.
    destruct (fs (data_path course y)) as [[d|e]|] eqn:E.
    + unfold and_then, print, no_output, done. cbn [fst snd app].
      rewrite IH. cbn [fst snd].
      destruct (first_failure fs (map (fun y0 => (course, y0)) years)).
      * reflexivity.
      * unfold loaded_files. cbn [flat_map fst snd]. rewrite E.
        rewrite <- app_assoc. reflexivity.
    + reflexivity.
    + unfold and_then, print, done. cbn [fst snd app].
      rewrite IH. cbn [fst snd].
      destruct (first_failure fs (map (fun y0 => (course, y0)) years)).
      * reflexivity.
      * unfold loaded_files. cbn [flat_map fst snd]. rewrite E.
        reflexivity.
Qed.

Lemma load_courses_outcome (courses years : list string)
      (dfs : list DataFrame) :
  load_courses fs courses years dfs
  = (printed_lines fs (list_prod courses years),
     match first_failure fs (list_prod courses years) with
     | Some e => Raise e
     | None => Ok (dfs ++ loaded_files fs (list_prod courses years))
     end).
Proof.
  revert dfs. induction courses as [|c courses IH]; intros dfs.
  - simpl. rewrite app_nil_r. reflexivity.
  - cbn [load_courses list_prod].
    rewrite load_years_outcome, printed_lines_app, first_failure_app.
    unfold and_then.
    destruct (first_failure fs (map (fun y => (c, y)) years)).
    + reflexivity.
    + rewrite IH. cbn [fst snd].
      destruct (first_failure fs (list_prod courses years)).
      * reflexivity.
      * unfold loaded_files. rewrite flat_map_app, app_assoc. reflexivity.
Qed.

Lemma load_data_outcome_gen (courses years : list string) :
  load_data result_dtype fs courses years
  = (printed_lines fs (list_prod courses years),
     match first_failure fs (list_prod courses years) with
     | Some e => Raise e
     | None =>
         Ok (match loaded_files fs (list_prod courses years) with
             | [] => None
             | dfs => Some (concat result_dtype dfs)
             end)
     end).
Proof.
  unfold load_data. rewrite load_courses_outcome. unfold and_then.
  destruct (first_failure fs (list_prod courses years)); [reflexivity|].
  cbn [app].
  destruct (loaded_files fs (list_prod courses years));
    cbn [fst snd done]; rewrite app_nil_r; reflexivity.
Qed.

(** [load_data] goes through the (course, year) pairs courses first, prints
    one line per pair, and stops at the first file that exists and does not
    parse: it then raises that file's exception, the files loaded so far are
    lost, and nothing is printed for the pairs after it. When no file
    fails, it returns the concatenation of the files that exist, or [None]
    when there is none. *)
Theorem load_data_outcome (courses years : list string) :
  load_data result_dtype fs courses years
  = (printed_lines fs (list_prod courses years),
     match first_failure fs (list_prod courses years) with
     | Some e => Raise e
     | None =>
         Ok (match loaded_files fs (list_prod courses years) with
             | [] => None
             | dfs => Some (concat result_dtype dfs)
             end)
     end).
Proof. apply load_data_outcome_gen. Qed.

(** When no file fails and exactly one of the selected files exists, the
    table returned has the columns of that file and its rows, cell for
    cell; only the labels are renumbered from 0. The file is assumed to have
    distinct column names and one cell per column in every row. *)
Theorem load_single_file
        (courses years : list string) (df : DataFrame) :
  first_failure fs (list_prod courses years) = None ->
  loaded_files fs (list_prod courses years) = [df] ->
  NoDup (column_names df) ->
  rectangular df = true ->
  exists t,
    snd (load_data result_dtype fs courses years) = Ok (Some t) /\
    column_names t = column_names df /\
    map cells (rows t) = map cells (rows df) /\
    map label (rows t) = seq 0 (List.length (rows df)).
Proof.
  intros Hfail Hone Hnd Hrect.
  rewrite load_data_outcome_gen, Hfail, Hone. cbn [snd].
  eexists. split; [reflexivity|].
  assert (Hcols : first_seen (flat_map column_names [df]) = column_names df).
  { simpl. rewrite app_nil_r. apply first_seen_NoDup. assumption. }
  unfold concat. rewrite Hcols. simpl. rewrite app_nil_r.
  split; [|split].
  - unfold column_names. simpl. rewrite map_map. simpl. apply map_id.
  - rewrite cells_relabel, map_map. apply map_ext_in. intros r Hr.
    unfold reindex. simpl. unfold cell.
    apply reindex_own_columns; [assumption|].
    unfold rectangular in Hrect. rewrite forallb_forall in Hrect.
    apply Nat.eqb_eq. apply Hrect. assumption.
  - rewrite labels_relabel, length_map. reflexivity.
Qed.

Lemma nothing_on_disk (pairs : list (string * string)) :
  first_failure fs pairs = None /\ loaded_files fs pairs = [] <->
  (forall p, In p pairs -> fs (data_path (fst p) (snd p)) = None).
Proof.
  induction pairs as [|p pairs IH]; simpl.
  - split; [intros _ q [] | auto].
  - destruct (fs (data_path (fst p) (snd p))) as [[d|e]|] eqn:E.
    + split.
      * intros [_ H]. discriminate.
      * intros H. specialize (H p (or_introl eq_refl)). congruence.
    + split.
      * intros [H _]. discriminate.
      * intros H. specialize (H p (or_introl eq_refl)). congruence.
    + rewrite IH. split.
      * intros H q [<-|Hq]; [exact E | apply H; exact Hq].
      * intros H q Hq. apply H. right. exact Hq.
Qed.

(** The page asks for a selection, without calling [load_data] or printing
    anything, exactly when no course or no year is selected; and it says
    "No data loaded." exactly when a course and a year are selected and
    none of the selected paths exists. *)
Theorem dashboard_page_messages (courses years : list string) :
  (snd (dashboard_page result_dtype fs courses years) = Ok AskForSelection
   <-> courses = [] \/ years = []) /\
  (courses = [] \/ years = [] ->
   fst (dashboard_page result_dtype fs courses years) = []) /\
  (snd (dashboard_page result_dtype fs courses years) = Ok NoDataLoaded
   <-> courses <> [] /\ years <> [] /\
       forall c y, In c courses -> In y years ->
                   fs (data_path c y) = None).
Proof.
  unfold dashboard_page.
  destruct courses as [|c cs]; [|destruct years as [|y ys]].
  - simpl. split; [|split].
    + split; auto.
    + reflexivity.
    + split; [discriminate | intros [H _]; contradiction H; reflexivity].
  - simpl. split; [|split].
    + split; auto.
    + reflexivity.
    + split; [discriminate |
              intros [_ [H _]]; contradiction H; reflexivity].
  - cbn [nonempty andb]. rewrite load_data_outcome_gen. unfold and_then.
    pose proof (nothing_on_disk (list_prod (c :: cs) (y :: ys))) as Hdisk.
    destruct (first_failure fs (list_prod (c :: cs) (y :: ys))) as [e|].
    + cbn [fst snd]. split; [|split].
      * split; [discriminate | intros [H|H]; discriminate].
      * intros [H|H]; discriminate.
      * split; [discriminate|]. intros [_ [_ H]].
        destruct Hdisk as [_ Hd].
        destruct Hd as [Hd _]; [|discriminate].
        intros [c' y'] Hp. apply in_prod_iff in Hp. apply H; tauto.
    + destruct (loaded_files fs (list_prod (c :: cs) (y :: ys))) as [|d ds].
      * cbn [fst snd done]. split; [|split].
        -- split; [discriminate | intros [H|H]; discriminate].
        -- intros [H|H]; discriminate.
        -- split; [|reflexivity]. intros _.
           split; [discriminate|]. split; [discriminate|].
           intros c' y' Hc' Hy'.
           destruct Hdisk as [Hd _].
           apply (Hd (conj eq_refl eq_refl) (c', y')).
           apply in_prod_iff. tauto.
      * cbn [fst snd done print and_then]. split; [|split].
        -- split; [discriminate | intros [H|H]; discriminate].
        -- intros [H|H]; discriminate.
        -- split; [discriminate|]. intros [_ [_ H]].
           destruct Hdisk as [_ Hd].
           destruct Hd as [_ Hd]; [|discriminate].
           intros [c' y'] Hp. apply in_prod_iff in Hp. apply H; tauto.
Qed.

Lemma list_prod_app {A B : Type} (l1 l2 : list A) (l : list B) :
  list_prod (l1 ++ l2) l = list_prod l1 l ++ list_prod l2 l.
Proof.
  induction l1 as [|x l1 IH]; simpl.
  - reflexivity.
  - rewrite IH, app_assoc. reflexivity.
Qed.

Lemma row_count_loaded (dfs : list DataFrame) :
  row_count (match dfs with
             | [] => None
             | d :: l => Some (concat result_dtype (d :: l))
             end)
  = list_sum (map (fun d => List.length (rows d)) dfs).
Proof.
  assert (H : List.length (rows (concat result_dtype dfs))
              = list_sum (map (fun d => List.length (rows d)) dfs)).
  { unfold concat. simpl. rewrite length_relabel, length_flat_map_rows.
    f_equal. apply map_ext. intros d. apply length_map. }
  destruct dfs as [|d ds]; [reflexivity | exact H].
Qed.

(** Row counts add up over courses: when no selected file fails, loading
    the courses [cs1 ++ cs2] returns as many rows as loading [cs1] and
    loading [cs2] return together ([None] counting for no row). *)
Theorem load_data_row_counts_add (cs1 cs2 years : list string) :
  first_failure fs (list_prod (cs1 ++ cs2) years) = None ->
  exists data data1 data2,
    snd (load_data result_dtype fs (cs1 ++ cs2) years) = Ok data /\
    snd (load_data result_dtype fs cs1 years) = Ok data1 /\
    snd (load_data result_dtype fs cs2 years) = Ok data2 /\
    row_count data = (row_count data1 + row_count data2)%nat.
Proof.
  intros Hfail. pose proof Hfail as Hboth.
  rewrite list_prod_app, first_failure_app in Hboth.
  destruct (first_failure fs (list_prod cs1 years)) eqn:H1; [discriminate|].
  rewrite !load_data_outcome_gen, Hfail, H1, Hboth. cbn [snd].
  eexists. eexists. eexists.
  split; [reflexivity|]. split; [reflexivity|]. split; [reflexivity|].
  rewrite !row_count_loaded, list_prod_app.
  unfold loaded_files. rewrite flat_map_app, map_app.
  rewrite list_sum_app. reflexivity.
Qed.

End LoaderMore.

(** * The further properties on the sample inputs *)

Lemma filter_dataframe_is_conjunction_witness :
  exists t,
    filter_dataframe literal_engine nt_range_choices nt_table = Ok t /\
    map label (rows t) = [5; 6; 7; 8; 9]%nat /\
    rows t
    = filter (fun r =>
                forallb (fun w => keeps literal_engine nt_range_choices
                                        (columns nt_table) w r)
                        (widgets_shown literal_engine nt_range_choices
                           nt_table nt_table
                           (selected_columns nt_range_choices nt_table)))
             (rows nt_table).
Proof.
  eexists. split; [vm_compute; reflexivity|]. split; [reflexivity|].
  apply (proj2 (@filter_dataframe_is_conjunction literal_engine
                  nt_range_choices nt_table _ eq_refl)).
Defined.

Lemma filter_in_two_calls_witness :
  filter_dataframe literal_engine
    (with_columns nt_range_choices (["N"%string] ++ ["T"%string])%list)
    nt_table
  = (t <- filter_dataframe literal_engine
            (with_columns nt_range_choices ["N"%string]) nt_table ;;
     filter_dataframe literal_engine
       (with_columns nt_range_choices ["T"%string]) t).
Proof.
  apply (@filter_in_two_calls literal_engine nt_range_choices nt_table
           ["N"%string] ["T"%string]).
  intros c [<-|[]] [s [Hs Hh]].
  vm_compute in Hs. inversion Hs. subst s. vm_compute in Hh. discriminate.
Defined.

Lemma unselected_widgets_have_no_effect_witness :
  filter_dataframe literal_engine (with_columns nt_choices ["T"%string])
                   nt_table
  = filter_dataframe literal_engine
      (mkWidgets (Some ["T"%string])
                 (fun c => if String.eqb c "T" then Some [VStr "x"] else None)
                 (fun _ => None) (fun _ => EmptyString) (fun _ => None))
      nt_table.
Proof.
  apply unselected_widgets_have_no_effect.
  - reflexivity.
  - intros c Hc. vm_compute in Hc. destruct Hc as [<-|[]].
    repeat split.
Defined.




Lemma filter_dataframe_no_rows_witness :
  filter_dataframe literal_engine nt_choices nt_no_rows = Ok nt_no_rows.
Proof.
  apply filter_dataframe_no_rows.
  - reflexivity.
  - intros c Hc. exact Hc.
Defined.


Lemma untouched_removes_missing_numbers_only_witness :
  exists t,
    filter_dataframe literal_engine untouched scores_table = Ok t /\
    In (mkRow 0 [VNum 0]) (rows t).
Proof.
  eexists. split; [vm_compute; reflexivity|].
  apply (proj1 (@untouched_removes_missing_numbers_only literal_engine
                  untouched scores_table _ (mkRow 0 [VNum 0])
                  eq_refl
                  ltac:(intros c Hc; repeat split)
                  eq_refl
                  ltac:(left; reflexivity))).
  intros c i d Hc Hi _. vm_compute in Hc. destruct Hc as [<-|[]].
  vm_compute in Hi. inversion Hi. subst. discriminate.
Defined.

Lemma filter_dataframe_keeps_shape_witness :
  exists t,
    filter_dataframe literal_engine nt_range_choices nt_table = Ok t /\
    rectangular t = true /\ well_typed t = true /\
    NoDup (map label (rows t)).
Proof.
  eexists. split; [vm_compute; reflexivity|].
  destruct (@filter_dataframe_keeps_shape literal_engine nt_range_choices
              nt_table _ eq_refl) as [Hrect [Hwt Hnd]].
  split; [apply Hrect; reflexivity|].
  split; [apply Hwt; reflexivity|].
  apply Hnd. vm_compute. repeat constructor; simpl; intuition discriminate.
Defined.

Lemma load_single_file_witness :
  exists t,
    snd (load_data object_promotion sample_disk
                   ["mlzoomcamp"%string] ["2021"%string]) = Ok (Some t) /\
    column_names t = column_names csv_2021 /\
    map cells (rows t) = map cells (rows csv_2021) /\
    map label (rows t) = seq 0 (List.length (rows csv_2021)).
Proof.
  apply (@load_single_file object_promotion sample_disk
           ["mlzoomcamp"%string] ["2021"%string] csv_2021).
  - reflexivity.
  - reflexivity.
  - vm_compute. repeat constructor; simpl; intuition discriminate.
  - reflexivity.
Defined.

Lemma load_data_row_counts_add_witness :
  exists data data1 data2,
    snd (load_data object_promotion sample_disk
                   (["dezoomcamp"%string] ++ ["mlzoomcamp"%string])%list
                   ["2021"; "2022"]%string) = Ok data /\
    snd (load_data object_promotion sample_disk
                   ["dezoomcamp"%string] ["2021"; "2022"]%string)
    = Ok data1 /\
    snd (load_data object_promotion sample_disk
                   ["mlzoomcamp"%string] ["2021"; "2022"]%string)
    = Ok data2 /\
    row_count data = (row_count data1 + row_count data2)%nat.
Proof.
  apply (@load_data_row_counts_add object_promotion sample_disk
           ["dezoomcamp"%string] ["mlzoomcamp"%string]
           ["2021"; "2022"]%string).
  reflexivity.
Defined.
